(** * The anxiety-attack dashboard (src/layout.py), embedded in Rocq

    The program is one Streamlit script: it reads an uploaded table, checks
    and cleans it (lines 22-40), and renders one of four pages (lines
    43-132).  The embedding follows the script top to bottom.

    - Python values: [int] is [Z], [float] and numpy's [float64] are the
      kernel's binary64 numbers ([float], with its single NaN), [str] is
      [string], read as a sequence of characters below 256.
    - pandas objects: a [DataFrame] is a list of column labels with their
      dtypes and a list of labelled rows; a missing value is NaN, as in
      pandas.  Columns with equal labels are kept apart, as pandas does.
    - Streamlit: the script runs in a small state-and-exception monad whose
      state is the module-level variable [df] and the list of elements
      rendered so far; an uncaught exception ends the run.

    Functions of pandas, numpy, seaborn and Streamlit are not code of the
    repository; they are modelled after their documented behaviour, each
    definition saying which call it stands for.  Three of them stay open
    as parameters: the number reader of [pd.to_numeric], the number writer
    of [to_csv], and [DataFrame.corr].  Regular expressions are modelled
    for patterns of literal characters and dots; CSV text for the comma
    dialect with minimal quoting that [to_csv] writes by default. *)

From Stdlib Require Import List String Ascii ZArith Floats Bool Lia DecimalString.
From stdpp Require Import base list.
Import ListNotations.

Local Open Scope string_scope.

(** ** Python built-ins *)

Module Py.

(** Exceptions the script can meet ([ReError] is [re.error]). *)
Inductive exn : Type :=
| KeyError (label : string)
| TypeError
| AttributeError
| ValueError
| ReError.

(** [str.isspace] on one character, for characters below 256. *)
Definition is_space (c : ascii) : bool :=
  let n := nat_of_ascii c in
  ((9 <=? n) && (n <=? 13) || (28 <=? n) && (n <=? 32) || (n =? 133) || (n =? 160))%nat.

Fixpoint lstrip (s : string) : string :=
  match s with
  | String c s' => if is_space c then lstrip s' else s
  | EmptyString => EmptyString
  end.

Fixpoint rev_onto (s acc : string) : string :=
  match s with
  | String c s' => rev_onto s' (String c acc)
  | EmptyString => acc
  end.

Definition reverse (s : string) : string := rev_onto s EmptyString.

Definition rstrip (s : string) : string := reverse (lstrip (reverse s)).

(** [s.strip()] *)
Definition strip (s : string) : string := rstrip (lstrip s).

(** [x in l] for a list of strings. *)
Definition contains (l : list string) (x : string) : bool :=
  existsb (String.eqb x) l.

(** [sep.join(l)] *)
Fixpoint join (sep : string) (l : list string) : string :=
  match l with
  | [] => ""
  | [x] => x
  | x :: l' => x ++ sep ++ join sep l'
  end.

(** [repr(s)] for a string without quotes, backslashes or control
    characters, which is what every required column name is. *)
Definition repr_str (s : string) : string := "'" ++ s ++ "'".

(** [repr(l)] for a list of such strings, as an f-string prints it. *)
Definition repr_list (l : list string) : string :=
  "[" ++ join ", " (map repr_str l) ++ "]".

(** [float(z)] for a Python int: the nearest binary64 number. *)
Definition of_Z (z : Z) : float := SF2Prim (binary_normalize prec emax z 0 false).

Definition of_nat (n : nat) : float := of_Z (Z.of_nat n).

Definition f100 : float := Eval vm_compute in of_Z 100.

(** The whole number a finite binary64 number stands for when its
    exponent is not negative, and its numerator over a power of 2
    otherwise: sign [s], mantissa [m]. *)
Definition signed (s : bool) (m : positive) : Z := if s then Z.neg m else Z.pos m.

(** The whole number nearest to [M / 2^k], the even one when two are
    equally near. *)
Definition round_half_even (M k : Z) : Z :=
  let P := (2 ^ k)%Z in
  let q := (M / P)%Z in
  let r := (M mod P)%Z in
  if (2 * r <? P)%Z then q
  else if (P <? 2 * r)%Z then (q + 1)%Z
  else if Z.even q then q else (q + 1)%Z.

(** The binary64 number of a whole number; a zero keeps the sign of what
    was rounded to it. *)
Definition whole (negative : bool) (n : Z) : float :=
  if (n =? 0)%Z then (if negative then neg_zero else zero) else of_Z n.

(** C's [rint] in the default rounding mode: the nearest whole number,
    ties to even, computed exactly.  A number without fraction bits (its
    exponent is not negative; every binary64 number from 2^52 on is one),
    a zero, NaN and the infinities are returned as they are. *)
Definition rint (x : float) : float :=
  match Prim2SF x with
  | S754_finite s m e =>
      if (e <? 0)%Z then whole s (round_half_even (signed s m) (- e)) else x
  | _ => x
  end.

(** [round(x, 2)] for a [numpy.float64]: numpy multiplies by 10^2, calls
    [rint] and divides by 10^2.  On NaN, where pandas hands back a plain
    Python float, Python's own [round] returns NaN as well. *)
Definition round2 (x : float) : float := (rint (x * f100) / f100)%float.

End Py.

(** ** pandas: frames, columns, missing values *)

Module Pd.
Import Py.

(** A column is numeric (pandas' [int64] and [float64]) or holds Python
    objects ([object]: the strings [read_csv] could not read as numbers,
    with NaN where the field was empty). *)
Inductive dtype : Type := Numeric | Object.

Inductive cell : Type :=
| Num (x : float)
| Str (s : string).

Definition NaN : cell := Num nan.

(** [pd.isna] on one value. *)
Definition isna (c : cell) : bool :=
  match c with
  | Num x => is_nan x
  | Str _ => false
  end.

Definition notna (c : cell) : bool := negb (isna c).

(** A row carries its index label (the row number [read_csv] gave it;
    dropping rows keeps the labels of the others) and one cell per
    column. *)
Definition row : Type := nat * list cell.

Record DataFrame : Type := mkDataFrame {
  columns : list string;
  dtypes : list dtype;
  rows : list row
}.

Record Series : Type := mkSeries {
  sdtype : dtype;
  svalues : list cell
}.

Definition cell_at (j : nat) (cs : list cell) : cell := default NaN (cs !! j).

(** The positions a label has among the column labels: pandas keeps
    columns with equal labels apart. *)
Fixpoint get_loc_from (i : nat) (cols : list string) (label : string) : list nat :=
  match cols with
  | [] => []
  | c :: cols' =>
      if String.eqb c label then i :: get_loc_from (S i) cols' label
      else get_loc_from (S i) cols' label
  end.

Definition get_loc (d : DataFrame) (label : string) : list nat :=
  get_loc_from 0 (columns d) label.

Definition column (d : DataFrame) (j : nat) : Series :=
  mkSeries (default Object (dtypes d !! j)) (map (fun r : row => cell_at j r.2) (rows d)).

(** What [df[label]] evaluates to: a Series when one column has the
    label, a frame of all of them when several do. *)
Inductive selection : Type :=
| OneColumn (j : nat) (s : Series)
| SeveralColumns (js : list nat).

(** [df[label]] *)
Definition getitem (d : DataFrame) (label : string) : exn + selection :=
  match get_loc d label with
  | [] => inl (KeyError label)
  | [j] => inr (OneColumn j (column d j))
  | js => inr (SeveralColumns js)
  end.

(** [df[label] = s] for a label that names the one column [j]; [s] has
    the frame's index. *)
Definition setitem (d : DataFrame) (j : nat) (s : Series) : DataFrame :=
  mkDataFrame (columns d) (<[j := sdtype s]> (dtypes d))
    (zip_with (fun (r : row) (v : cell) => (r.1, <[j := v]> r.2)) (rows d) (svalues s)).

(** [df.columns = df.columns.str.strip()] *)
Definition strip_columns (d : DataFrame) : DataFrame :=
  mkDataFrame (map strip (columns d)) (dtypes d) (rows d).

Section ToNumeric.
(** The conversion of one string to a number, as [pd.to_numeric] does
    it; [None] when the string is not a number. *)
Variable parse_number : string -> option float.

Definition coerce (c : cell) : cell :=
  match c with
  | Num x => Num x
  | Str s =>
      match parse_number s with
      | Some x => Num x
      | None => NaN
      end
  end.

(** [pd.to_numeric(s, errors="coerce")] on a Series: numbers stay,
    strings are converted, and what cannot be converted becomes NaN.
    On a frame (several columns) it raises TypeError. *)
Definition to_numeric (sel : selection) : exn + Series :=
  match sel with
  | OneColumn _ s => inr (mkSeries Numeric (map coerce (svalues s)))
  | SeveralColumns _ => inl TypeError
  end.
End ToNumeric.

(** The positions of all columns labelled by one of [subset], or the
    first label of [subset] that no column has. *)
Fixpoint subset_positions (d : DataFrame) (subset : list string) : exn + list nat :=
  match subset with
  | [] => inr []
  | label :: subset' =>
      match get_loc d label with
      | [] => inl (KeyError label)
      | js =>
          match subset_positions d subset' with
          | inl e => inl e
          | inr js' => inr (js ++ js')%list
          end
      end
  end.

(** A row is complete on the positions [js] when none of these cells is
    missing. *)
Definition complete_on (js : list nat) (r : row) : bool :=
  forallb (fun j => notna (cell_at j r.2)) js.

(** [df.dropna(subset=subset, inplace=True)]: keeps, in order and with
    their labels, the rows that miss nothing in the [subset] columns. *)
Definition dropna (d : DataFrame) (subset : list string) : exn + DataFrame :=
  match subset_positions d subset with
  | inl e => inl e
  | inr js => inr (mkDataFrame (columns d) (dtypes d) (List.filter (complete_on js) (rows d)))
  end.

(** *** numpy's sum of a float64 array ([np.add.reduce])

    numpy adds pairwise (DOUBLE_pairwise_sum of its loops): fewer than 8
    numbers one after the other; up to 128 numbers in 8 lanes, [r[j]]
    taking every 8th number from the [j]th on, the lanes then added as
    [((r0 + r1) + (r2 + r3)) + ((r4 + r5) + (r6 + r7))] and what is left
    over after the last full block of 8 added one after the other; more
    than 128 numbers split in two parts, the first of [n/2] numbers cut
    down to a multiple of 8, each part summed in this way and the two
    sums added.  A sum starts from -0.0, which adds nothing and keeps the
    sign of a zero (numpy from 1.25 on); the sum of no number is 0.0.
    This is the order for a column pandas holds as float64; [Series.mean]
    takes its sum from here (not from bottleneck, whose sum runs left to
    right). *)

(** [res += a[i]] for the numbers of [xs], one after the other. *)
Definition add_all (res : float) (xs : list float) : float := fold_left PrimFloat.add xs res.

(** [r[j] += a[i + j]] for the 8 lanes, block after block of 8. *)
Fixpoint lanes (blocks : nat) (r xs : list float) : list float :=
  match blocks with
  | O => r
  | S blocks' => lanes blocks' (zip_with PrimFloat.add r (firstn 8 xs)) (skipn 8 xs)
  end.

Definition lane (r : list float) (j : nat) : float := nth j r 0%float.

(** From 8 to 128 numbers. *)
Definition block_sum (xs : list float) : float :=
  let n := length xs in
  let r := lanes (n / 8 - 1) (firstn 8 xs) (skipn 8 xs) in
  let res := (((lane r 0 + lane r 1) + (lane r 2 + lane r 3)) +
              ((lane r 4 + lane r 5) + (lane r 6 + lane r 7)))%float in
  add_all res (skipn (n - n mod 8) xs).

(** The recursion halves the list; [depth] bounds how often (the length
    of the list is more than enough, see [pairwise_sum_depth]). *)
Fixpoint pairwise_sum (depth : nat) (xs : list float) : float :=
  let n := length xs in
  if (n <? 8)%nat then add_all neg_zero xs
  else if (n <=? 128)%nat then block_sum xs
  else
    match depth with
    | O => block_sum xs
    | S depth' =>
        let n2 := (n / 2 - (n / 2) mod 8)%nat in
        (pairwise_sum depth' (firstn n2 xs) + pairwise_sum depth' (skipn n2 xs))%float
    end.

Definition np_sum (xs : list float) : float :=
  match xs with
  | [] => 0%float
  | _ :: _ => (neg_zero + pairwise_sum (length xs) xs)%float
  end.

(** [np.mean(xs)]: the sum over the count. *)
Definition np_mean (xs : list float) : float := (np_sum xs / of_nat (length xs))%float.

Definition float_of_cell (c : cell) : float :=
  match c with
  | Num x => x
  | Str _ => nan
  end.

(** [s.mean()] with the default [skipna=True]: missing values count as 0
    in the sum and are left out of the count; with nothing to count the
    mean is NaN.  A column of strings has no mean. *)
Definition mean (s : Series) : exn + float :=
  match sdtype s with
  | Object => inl TypeError
  | Numeric =>
      let xs := map float_of_cell (svalues s) in
      let count := length (List.filter (fun x => negb (is_nan x)) xs) in
      if (count =? 0)%nat then inr nan
      else inr (np_sum (map (fun x => if is_nan x then 0%float else x) xs) / of_nat count)%float
  end.

(** *** [DataFrame.corr] *)

(** The running sums of pandas' [nancorr] for two columns [x] and [y]
    (Welford's method): the rows counted, the two means, the two sums of
    squared deviations and the sum of the products of the deviations. *)
Record welford : Type := mkWelford {
  nobs : nat;
  meanx : float;
  meany : float;
  ssqdm_x : float;
  ssqdm_y : float;
  covxy : float
}.

Definition welford_start : welford := mkWelford 0 0 0 0 0 0.

(** One row: it counts when both values are finite ([np.isfinite]). *)
Definition welford_row (w : welford) (v : float * float) : welford :=
  let (vx, vy) := v in
  if is_finite vx && is_finite vy then
    let n := S (nobs w) in
    let dx := (vx - meanx w)%float in
    let dy := (vy - meany w)%float in
    let mx := (meanx w + 1 / of_nat n * dx)%float in
    let my := (meany w + 1 / of_nat n * dy)%float in
    mkWelford n mx my
      (ssqdm_x w + (vx - mx) * dx)%float
      (ssqdm_y w + (vy - my) * dy)%float
      (covxy w + (vx - mx) * dy)%float
  else w.

(** One entry of the matrix: NaN without a counted row ([min_periods] is
    1) and when the divisor is 0, the quotient otherwise. *)
Definition pearson (xs ys : list float) : float :=
  let w := fold_left welford_row (zip xs ys) welford_start in
  if (nobs w <? 1)%nat then nan
  else
    let divisor := sqrt (ssqdm_x w * ssqdm_y w) in
    if (divisor =? 0)%float then nan else (covxy w / divisor)%float.

(** The entry for the columns at [i] and [j]: [nancorr] computes it once,
    with the column of the larger position as [x], and writes it at both
    places. *)
Definition correlation (cols : list (list float)) (i j : nat) : float :=
  if (j <=? i)%nat then pearson (nth i cols []) (nth j cols [])
  else pearson (nth j cols []) (nth i cols []).

Definition nancorr (cols : list (list float)) : list (list float) :=
  let k := length cols in
  map (fun i => map (fun j => correlation cols i j) (seq 0 k)) (seq 0 k).

Section Corr.
(** Python's [float(s)] for a string; [None] when it raises. *)
Variable to_float : string -> option float.

(** One column of [to_numpy(dtype=float)]: numbers as they are, a string
    through [float], ValueError at the first string that is no number. *)
Fixpoint floats_of (cs : list cell) : exn + list float :=
  match cs with
  | [] => inr []
  | c :: cs' =>
      match (match c with
             | Num x => Some x
             | Str t => to_float t
             end) with
      | None => inl ValueError
      | Some x =>
          match floats_of cs' with
          | inl e => inl e
          | inr xs => inr (x :: xs)
          end
      end
  end.

Fixpoint columns_of (ss : list Series) : exn + list (list float) :=
  match ss with
  | [] => inr []
  | s :: ss' =>
      match floats_of (svalues s) with
      | inl e => inl e
      | inr xs =>
          match columns_of ss' with
          | inl e => inl e
          | inr cols => inr (xs :: cols)
          end
      end
  end.

(** [df.corr(numeric_only=numeric_only)] with the method (Pearson) and
    [min_periods] (1) of the defaults: the columns of a numeric dtype
    when [numeric_only], all columns otherwise, as floats.  The script
    calls [df.corr()]: pandas before 2.0 then leaves the columns that
    are not numeric out ([numeric_only] true), pandas from 2.0 on takes
    all columns ([numeric_only] false). *)
Definition corr (numeric_only : bool) (d : DataFrame) : exn + list (list float) :=
  let all := map (column d) (seq 0 (length (columns d))) in
  let chosen :=
    if numeric_only
    then List.filter (fun s => match sdtype s with Numeric => true | Object => false end) all
    else all in
  match columns_of chosen with
  | inl e => inl e
  | inr cols => inr (nancorr cols)
  end.
End Corr.

End Pd.

(** ** Python's [re] with IGNORECASE, for a search in strings *)

Module Re.
Import Py.

(** The characters that are not literals in a pattern. *)
Definition is_meta (c : ascii) : bool :=
  existsb (Ascii.eqb c) (list_ascii_of_string ".^$*+?{}[]\|()").

(** Patterns of literal characters and [.] are worked out here. *)
Inductive atom : Type :=
| Lit (c : ascii)
| AnyChar.

Fixpoint parse (pat : string) : option (list atom) :=
  match pat with
  | EmptyString => Some []
  | String c pat' =>
      match parse pat' with
      | None => None
      | Some r =>
          if Ascii.eqb c "." then Some (AnyChar :: r)
          else if is_meta c then None
          else Some (Lit c :: r)
      end
  end.

(** Lower case of a character below 256: A-Z, and the accented capitals
    192-222 except the multiplication sign 215. *)
Definition lower (c : ascii) : ascii :=
  let n := nat_of_ascii c in
  if ((65 <=? n) && (n <=? 90) || (192 <=? n) && (n <=? 222) && negb (n =? 215))%nat
  then ascii_of_nat (n + 32)
  else c.

Definition atom_matches (a : atom) (c : ascii) : bool :=
  match a with
  | Lit p => Ascii.eqb (lower p) (lower c)
  | AnyChar => negb (Ascii.eqb c "010")
  end.

(** The atoms match a prefix of [s]. *)
Fixpoint match_here (r : list atom) (s : string) : bool :=
  match r, s with
  | [], _ => true
  | _ :: _, EmptyString => false
  | a :: r', String c s' => atom_matches a c && match_here r' s'
  end.

(** The atoms match somewhere in [s]. *)
Fixpoint find (r : list atom) (s : string) : bool :=
  match_here r s ||
  match s with
  | EmptyString => false
  | String _ s' => find r s'
  end.

(** A compiled pattern: one of literals and dots, or any other pattern
    Python compiles, known by what its [search] finds. *)
Inductive regex : Type :=
| Atoms (r : list atom)
| Other (finds : string -> bool).

Section Compile.
(** [re.compile(pat, re.IGNORECASE)] for the patterns that are not worked
    out here, those with a metacharacter other than a dot: the exception
    raised, or what [search] finds in a string. *)
Variable beyond : string -> exn + (string -> bool).

(** [re.compile(pat, flags=re.IGNORECASE)].  A pattern that starts with a
    repetition sign has nothing to repeat and is refused. *)
Definition compile (pat : string) : exn + regex :=
  match pat with
  | String c _ =>
      if existsb (Ascii.eqb c) (list_ascii_of_string "*+?") then inl ReError
      else match parse pat with
           | Some r => inr (Atoms r)
           | None =>
               match beyond pat with
               | inl e => inl e
               | inr finds => inr (Other finds)
               end
           end
  | EmptyString => inr (Atoms [])
  end.
End Compile.

(** [r.search(s) is not None] *)
Definition search (r : regex) (s : string) : bool :=
  match r with
  | Atoms r => find r s
  | Other finds => finds s
  end.

End Re.

Module PdStr.
Import Py Pd.

Section Contains.
Variable beyond : string -> exn + (string -> bool).

(** [sel.str.contains(pat, case=False, na=False)].  The [.str] accessor
    exists on a Series of objects only (AttributeError on a numeric
    Series and on a frame); [pat] is a regular expression, compiled once;
    a missing value gives [False]. *)
Definition contains (sel : selection) (pat : string) : exn + list bool :=
  match sel with
  | SeveralColumns _ => inl AttributeError
  | OneColumn _ s =>
      match sdtype s with
      | Numeric => inl AttributeError
      | Object =>
          match Re.compile beyond pat with
          | inl e => inl e
          | inr r =>
              inr (map (fun c => match c with
                                 | Str t => Re.search r t
                                 | Num _ => false
                                 end) (svalues s))
          end
      end
  end.
End Contains.

(** [a | b] on two boolean Series with the same index. *)
Definition mask_or (a b : list bool) : list bool := zip_with orb a b.

(** [df[mask]]: the rows whose mask entry is [True]. *)
Fixpoint select_rows (mask : list bool) (rs : list row) : list row :=
  match mask, rs with
  | m :: mask', r :: rs' => if m then r :: select_rows mask' rs' else select_rows mask' rs'
  | _, _ => []
  end.

Definition getitem_mask (d : DataFrame) (mask : list bool) : DataFrame :=
  mkDataFrame (columns d) (dtypes d) (select_rows mask (rows d)).

(** [sel.unique()]: the distinct values in order of first appearance
    (missing values counting as one); a frame has no such method. *)
Definition cell_eqb (a b : cell) : bool :=
  match a, b with
  | Num x, Num y => (x =? y)%float || is_nan x && is_nan y
  | Str s, Str t => String.eqb s t
  | _, _ => false
  end.

Fixpoint dedup (seen cs : list cell) : list cell :=
  match cs with
  | [] => []
  | c :: cs' =>
      if existsb (cell_eqb c) seen then dedup seen cs'
      else c :: dedup (c :: seen) cs'
  end.

Definition unique (sel : selection) : exn + list cell :=
  match sel with
  | SeveralColumns _ => inl AttributeError
  | OneColumn _ s => inr (dedup [] (svalues s))
  end.

End PdStr.

(** ** Streamlit: what a run renders *)

Module St.
Import Py Pd.

(** The four entries of the sidebar's radio button. *)
Inductive Page : Type := Home | DataVisualization | Predictions | Reports.

(** A seaborn call, recorded with its arguments. *)
Inductive plot : Type :=
| Barplot (x y : string) (data : DataFrame)
| Scatterplot (x y : string) (data : DataFrame)
| Histplot (s : selection) (kde : bool) (color label : string)
| Legend
| Heatmap (m : list (list float)) (annot : bool) (cmap fmt : string).

(** An element the script puts on the page. *)
Inductive element : Type :=
| SidebarTitle (text : string)
| SidebarError (text : string)
| Title (text : string)
| Write (text : string)
| Subheader (text : string)
| Warning (text : string)
| Metric (label : string) (value : float)
| Pyplot (fig : list plot)
| Dataframe (data : DataFrame)
| DownloadButton (label : string) (data : list Byte.byte) (file_name mime : string).

(** The state of a run: the script's variable [df] ([None] is "no
    dataset") and the elements rendered so far, oldest first. *)
Record session : Type := mkSession {
  df : option DataFrame;
  rendered : list element
}.

Inductive outcome (A : Type) : Type :=
| Done (a : A) (s : session)
| Raised (e : exn) (s : session).
Arguments Done {A} a s.
Arguments Raised {A} e s.

Definition run (A : Type) : Type := session -> outcome A.

Definition ret {A} (a : A) : run A := fun s => Done a s.

Definition bind {A B} (m : run A) (k : A -> run B) : run B :=
  fun s =>
    match m s with
    | Done a s' => k a s'
    | Raised e s' => Raised e s'
    end.

Definition raise {A} (e : exn) : run A := fun s => Raised e s.

(** A library call that returns or raises. *)
Definition call {A} (r : exn + A) : run A :=
  match r with
  | inl e => raise e
  | inr a => ret a
  end.

Definition get_df : run (option DataFrame) := fun s => Done (df s) s.

Definition set_df (d : option DataFrame) : run unit :=
  fun s => Done tt (mkSession d (rendered s)).

Definition render (e : element) : run unit :=
  fun s => Done tt (mkSession (df s) (rendered s ++ [e])).

(** The state a run ends in, finished or interrupted. *)
Definition final {A} (o : outcome A) : session :=
  match o with
  | Done _ s => s
  | Raised _ s => s
  end.

(** [for x in xs: body x] *)
Fixpoint for_each {A} (xs : list A) (body : A -> run unit) : run unit :=
  match xs with
  | [] => ret tt
  | x :: xs' => bind (body x) (fun _ => for_each xs' body)
  end.

End St.

Notation "x <- m ;; k" := (St.bind m (fun x => k))
  (at level 100, m at next level, right associativity).
Notation "m ;;; k" := (St.bind m (fun _ => k))
  (at level 100, right associativity).

(** ** [str.encode('utf-8')] for characters below 256 *)

Module Utf8.

(** One character: itself below 128, two bytes from 128 on.  Nothing is
    put in front of the text. *)
Definition encode_char (c : ascii) : list Byte.byte :=
  let n := nat_of_ascii c in
  if (n <? 128)%nat then [byte_of_ascii c]
  else [byte_of_ascii (ascii_of_nat (192 + n / 64));
        byte_of_ascii (ascii_of_nat (128 + n mod 64))].

Fixpoint encode (s : string) : list Byte.byte :=
  match s with
  | EmptyString => []
  | String c s' => (encode_char c ++ encode s')%list
  end.



End Utf8.

(** ** CSV text: what [to_csv] writes and [read_csv] reads *)

Module Csv.
Import Py Pd.

Definition comma : ascii := ",".
Definition dquote : ascii := "034".
Definition LF : ascii := "010".
Definition CR : ascii := "013".

(** *** Writing: Python's [csv.writer] as pandas sets it up
    (comma, double quote, minimal quoting, lines ended by a line feed, the
    line separator of POSIX systems) *)

(** The characters that make the writer quote a field: the delimiter, the
    quote and the characters of the line terminator.  A carriage return is
    none of them (CPython 3.11). *)
Definition special (c : ascii) : bool :=
  Ascii.eqb c comma || Ascii.eqb c dquote || Ascii.eqb c LF.

Fixpoint needs_quotes (s : string) : bool :=
  match s with
  | EmptyString => false
  | String c s' => special c || needs_quotes s'
  end.

(** A quote inside a quoted field is written twice. *)
Fixpoint double_quotes (s : string) : string :=
  match s with
  | EmptyString => EmptyString
  | String c s' =>
      if Ascii.eqb c dquote then String dquote (String dquote (double_quotes s'))
      else String c (double_quotes s')
  end.

Definition write_field (s : string) : string :=
  if needs_quotes s then String dquote (double_quotes s ++ String dquote "")
  else s.

(** One record: its fields between commas, then a line feed.  A record
    of one empty field is written as two quotes, not as an empty line. *)
Definition write_record (fs : list string) : string :=
  match fs with
  | [EmptyString] => String dquote (String dquote (String LF ""))
  | _ => join "," (map write_field fs) ++ String LF ""
  end.

Fixpoint write_records (records : list (list string)) : string :=
  match records with
  | [] => ""
  | fs :: records' => write_record fs ++ write_records records'
  end.

Section Format.
(** The text pandas writes for a number that is not missing. *)
Variable format_number : float -> string.

(** The text of one cell: nothing for a missing value. *)
Definition format_cell (c : cell) : string :=
  match c with
  | Str s => s
  | Num x => if is_nan x then "" else format_number x
  end.

(** The frame as records of text: the column names, then one record a
    row.  The index is left out ([index=False]). *)
Definition records_of (d : DataFrame) : list (list string) :=
  columns d :: map (fun r : row => map format_cell r.2) (rows d).

(** [df.to_csv(index=False)] *)
Definition to_csv (d : DataFrame) : string := write_records (records_of d).
End Format.

(** *** Reading: the tokenizer of [read_csv] *)

(** Where the tokenizer stands: before a record, in a line that has only
    blanks so far, before a field, in a field, in a quoted field, after a
    quote in a quoted field. *)
Inductive state : Type :=
| StartRecord
| WhitespaceLine (blanks : string)
| StartField
| InField
| InQuoted
| QuoteInQuoted.

Definition is_blank (c : ascii) : bool := Ascii.eqb c " " || Ascii.eqb c "009".
Definition is_newline (c : ascii) : bool := Ascii.eqb c LF || Ascii.eqb c CR.

(** The records of the rest of the input are built back to front: a
    character is put in front of the field being read, a comma starts a
    field in front of the record being read, a line end starts a record. *)
Definition push (c : ascii) (records : list (list string)) : list (list string) :=
  match records with
  | (f :: fs) :: records' => (String c f :: fs) :: records'
  | [] :: records' => [String c ""] :: records'
  | [] => [[String c ""]]
  end.

Fixpoint push_all (s : string) (records : list (list string)) : list (list string) :=
  match s with
  | EmptyString => records
  | String c s' => push c (push_all s' records)
  end.

Definition new_field (records : list (list string)) : list (list string) :=
  match records with
  | fs :: records' => ("" :: fs) :: records'
  | [] => [[""]]
  end.

Definition new_record (records : list (list string)) : list (list string) :=
  [""] :: records.

(** The records of [s], read from state [st]; [None] when the input ends
    inside a quoted field.  A carriage return ends a line as a line feed
    does, lines that are empty or hold blanks only are skipped, and a quote
    opens a quoted field at the start of a field only. *)
Fixpoint tokens (st : state) (s : string) : option (list (list string)) :=
  match s with
  | EmptyString =>
      match st with
      | StartRecord | WhitespaceLine _ => Some []
      | InQuoted => None
      | StartField | InField | QuoteInQuoted => Some [[""]]
      end
  | String c s' =>
      match st with
      | StartRecord =>
          if is_newline c then tokens StartRecord s'
          else if is_blank c then tokens (WhitespaceLine (String c "")) s'
          else if Ascii.eqb c dquote then tokens InQuoted s'
          else if Ascii.eqb c comma then option_map new_field (tokens StartField s')
          else option_map (push c) (tokens InField s')
      | WhitespaceLine blanks =>
          if is_newline c then tokens StartRecord s'
          else if is_blank c then tokens (WhitespaceLine (blanks ++ String c "")) s'
          else if Ascii.eqb c comma
               then option_map (fun rs => push_all blanks (new_field rs)) (tokens StartField s')
               else option_map (fun rs => push_all blanks (push c rs)) (tokens InField s')
      | StartField =>
          if is_newline c then option_map new_record (tokens StartRecord s')
          else if Ascii.eqb c dquote then tokens InQuoted s'
          else if Ascii.eqb c comma then option_map new_field (tokens StartField s')
          else option_map (push c) (tokens InField s')
      | InField =>
          if is_newline c then option_map new_record (tokens StartRecord s')
          else if Ascii.eqb c comma then option_map new_field (tokens StartField s')
          else option_map (push c) (tokens InField s')
      | InQuoted =>
          if Ascii.eqb c dquote then tokens QuoteInQuoted s'
          else option_map (push c) (tokens InQuoted s')
      | QuoteInQuoted =>
          if Ascii.eqb c dquote then option_map (push dquote) (tokens InQuoted s')
          else if is_newline c then option_map new_record (tokens StartRecord s')
          else if Ascii.eqb c comma then option_map new_field (tokens StartField s')
          else option_map (push c) (tokens InField s')
      end
  end.

(** The records of a whole text. *)
Definition tokenize (s : string) : option (list (list string)) := tokens StartRecord s.

(** *** Reading: from records to a typed frame *)

(** The fields [read_csv] reads as a missing value. *)
Definition na_values : list string :=
  [""; "#N/A"; "#N/A N/A"; "#NA"; "-1.#IND"; "-1.#QNAN"; "-NaN"; "-nan"; "1.#IND";
   "1.#QNAN"; "<NA>"; "N/A"; "NA"; "NULL"; "NaN"; "None"; "n/a"; "nan"; "null"].

Definition is_na (s : string) : bool := Py.contains na_values s.

Definition is_bool_text (s : string) : bool :=
  Py.contains ["True"; "TRUE"; "true"; "False"; "FALSE"; "false"] s.

Section Read.
Variable parse_number : string -> option float.

(** One column of fields: numeric when every field that is not missing
    reads as a number, text otherwise; without rows, a column of objects. *)
Definition numeric_fields (fs : list string) : bool :=
  forallb (fun f => is_na f || match parse_number f with Some _ => true | None => false end) fs.

Definition read_number (f : string) : cell :=
  if is_na f then NaN
  else match parse_number f with
       | Some x => Num x
       | None => NaN
       end.

Definition read_text (f : string) : cell := if is_na f then NaN else Str f.

Definition column_fields (j : nat) (records : list (list string)) : list string :=
  map (fun fs => nth j fs "") records.

Definition infer (fs : list string) : dtype :=
  match fs with
  | [] => Object
  | _ :: _ => if numeric_fields fs then Numeric else Object
  end.

Definition read_cell (dt : dtype) (f : string) : cell :=
  match dt with
  | Numeric => read_number f
  | Object => read_text f
  end.

Fixpoint number_rows (i : nat) (rs : list (list cell)) : list row :=
  match rs with
  | [] => []
  | r :: rs' => (i, r) :: number_rows (S i) rs'
  end.

(** [pd.read_csv] on decoded text, for the files whose header and
    records need no repair: every column name is given and given once,
    every record has one field a name, and no column holds booleans
    only.  For other files (pandas invents and renames column names, pads
    short records, refuses long ones and gives booleans a dtype of their
    own) nothing is said: the result is [None]. *)
Definition read_csv (text : string) : option DataFrame :=
  match tokenize text with
  | Some (names :: records) =>
      let n := length names in
      let dts := map (fun j => infer (column_fields j records)) (seq 0 n) in
      if existsb (String.eqb "") names
         || negb (Nat.eqb (length (List.nodup string_dec names)) n)
         || negb (forallb (fun fs => Nat.eqb (length fs) n) records)
         || existsb (fun j => match column_fields j records with
                              | [] => false
                              | fs => forallb (fun f => is_na f || is_bool_text f) fs
                                      && existsb is_bool_text fs
                              end) (seq 0 n)
      then None
      else Some (mkDataFrame names dts
                   (number_rows 0 (map (fun fs => zip_with read_cell dts fs) records)))
  | _ => None
  end.
End Read.

End Csv.

(** ** The script, src/layout.py *)

Module Layout.
Import Py Pd St.

(** Lines 27-29. *)
Definition required_columns : list string :=
  ["Gender"; "Occupation"; "Stress Level (1-10)"; "Heart Rate (bpm during attack)";
   "Breathing Rate (breaths/min)"; "Caffeine Intake (mg/day)";
   "Alcohol Consumption (drinks/week)"; "Severity of Anxiety Attack (1-10)"; "Sleep Hours"].

(** The eight values entered on the Predictions page (lines 102-109): two
    choices among the dataset's values ([None] when there is nothing to
    choose from) and six whole numbers. *)
Record ScenarioInput : Type := mkScenarioInput {
  gender : option cell;
  occupation : option cell;
  stress_level : Z;
  heart_rate : Z;
  breathing_rate : Z;
  caffeine : Z;
  alcohol : Z;
  sleep_hours : Z
}.

(** What the user does in one run of the script: the page chosen, the
    file uploaded (as [pd.read_csv] returns it), and the state of the
    widgets. *)
Record Inputs : Type := mkInputs {
  page : Page;
  uploaded_file : option DataFrame;
  gender_choice : nat;
  occupation_choice : nat;
  stress_slider : Z;
  heart_rate_input : Z;
  breathing_rate_input : Z;
  caffeine_input : Z;
  alcohol_input : Z;
  sleep_slider : Z;
  search_text : string
}.

(** Line 112. *)
Definition predicted_severity (f : ScenarioInput) : float :=
  np_mean [of_Z (stress_level f);
           (of_Z (heart_rate f) / of_Z 20)%float;
           (of_Z (breathing_rate f) / of_Z 5)%float;
           (of_Z (caffeine f) / of_Z 100)%float;
           of_Z (alcohol f)].

(** Line 31. *)
Definition missing_cols (d : DataFrame) : list string :=
  List.filter (fun col => negb (Py.contains (columns d) col)) required_columns.

Section Script.
(** Library functions the script calls and this development leaves
    open: the number reader of [pd.to_numeric], [DataFrame.corr] (modelled
    as [Pd.corr], which the Chart View's theorem puts here), the text
    [DataFrame.to_csv] writes for a number, and Python's [re] on the
    patterns [Re.compile] does not work out itself. *)
Variable parse_number : string -> option float.
Variable corr : DataFrame -> exn + list (list float).
Variable format_number : float -> string.
Variable re_beyond : string -> exn + (string -> bool).

(** The script's [df], which is a frame wherever the script uses it. *)
Definition the_df : run DataFrame :=
  d <- get_df ;;
  match d with
  | Some d => ret d
  | None => raise TypeError
  end.

(** Line 39: [df[col] = pd.to_numeric(df[col], errors="coerce")]. *)
Definition convert_column (col : string) : run unit :=
  d <- the_df ;;
  sel <- call (getitem d col) ;;
  s <- call (to_numeric parse_number sel) ;;
  match sel with
  | OneColumn j _ => set_df (Some (setitem d j s))
  | SeveralColumns _ => raise TypeError
  end.

(** Lines 22-40. *)
Definition load_data (uploaded_file : option DataFrame) : run unit :=
  match uploaded_file with
  | Some raw =>
      set_df (Some (strip_columns raw)) ;;;
      d <- the_df ;;
      match missing_cols d with
      | _ :: _ =>
          render (SidebarError ("❌ Missing columns in dataset: " ++ repr_list (missing_cols d))) ;;;
          set_df None
      | [] =>
          for_each (skipn 2 required_columns) convert_column ;;;
          d <- the_df ;;
          d' <- call (dropna d required_columns) ;;
          set_df (Some d')
      end
  | None => ret tt
  end.

(** [round(df[col].mean(), 2)] shown as a metric (lines 52-63).  When
    several columns have the label the mean is a Series, which
    [st.metric] refuses. *)
Definition avg_metric (d : DataFrame) (label col : string) : run unit :=
  sel <- call (getitem d col) ;;
  match sel with
  | OneColumn _ s =>
      m <- call (mean s) ;;
      render (Metric label (round2 m))
  | SeveralColumns _ => raise TypeError
  end.

(** Lines 43-65. *)
Definition home : run unit :=
  render (Title "🏠 Anxiety Attack Data Analysis") ;;;
  render (Write "Analyze and predict anxiety attack severity using dataset insights.") ;;;
  d <- get_df ;;
  match d with
  | Some d =>
      render (Subheader "📊 Overview Metrics") ;;;
      avg_metric d "📉 Avg. Stress Level" "Stress Level (1-10)" ;;;
      avg_metric d "❤️ Avg. Heart Rate (bpm)" "Heart Rate (bpm during attack)" ;;;
      avg_metric d "🌬 Avg. Breathing Rate" "Breathing Rate (breaths/min)" ;;;
      avg_metric d "☕ Avg. Caffeine Intake (mg)" "Caffeine Intake (mg/day)" ;;;
      avg_metric d "🍷 Avg. Alcohol Intake (drinks/week)" "Alcohol Consumption (drinks/week)"
  | None => render (Warning "⚠ Please upload a valid dataset to see insights.")
  end.

(** Lines 67-93. *)
Definition data_visualization : run unit :=
  render (Title "📊 Data Visualization") ;;;
  d <- get_df ;;
  match d with
  | Some d =>
      render (Subheader "🔹 Gender vs. Anxiety Severity (Bar Chart)") ;;;
      render (Pyplot [Barplot "Gender" "Severity of Anxiety Attack (1-10)" d]) ;;;
      render (Subheader "🔹 Sleep Hours vs. Stress Level (Scatter Plot)") ;;;
      render (Pyplot [Scatterplot "Sleep Hours" "Stress Level (1-10)" d]) ;;;
      render (Subheader "🔹 Heart Rate & Breathing Rate Distribution (Histogram)") ;;;
      hr <- call (getitem d "Heart Rate (bpm during attack)") ;;
      br <- call (getitem d "Breathing Rate (breaths/min)") ;;
      render (Pyplot [Histplot hr true "blue" "Heart Rate";
                      Histplot br true "red" "Breathing Rate"; Legend]) ;;;
      render (Subheader "🔹 Heatmap (Feature Correlation)") ;;;
      m <- call (corr d) ;;
      render (Pyplot [Heatmap m true "coolwarm" ".2f"])
  | None => render (Warning "⚠ Please upload a valid dataset to view visualizations.")
  end.

(** [st.selectbox(label, options)]: the option the user picked. *)
Definition selectbox (options : list cell) (choice : nat) : option cell :=
  options !! choice.

(** Lines 95-115. *)
Definition predictions (inp : Inputs) : run unit :=
  render (Title "🤖 Anxiety Severity Prediction") ;;;
  d <- get_df ;;
  match d with
  | Some d =>
      render (Write "📥 Enter new case details to predict anxiety severity.") ;;;
      g <- call (getitem d "Gender") ;;
      genders <- call (PdStr.unique g) ;;
      o <- call (getitem d "Occupation") ;;
      occupations <- call (PdStr.unique o) ;;
      let form :=
        mkScenarioInput (selectbox genders (gender_choice inp))
                        (selectbox occupations (occupation_choice inp))
                        (stress_slider inp) (heart_rate_input inp)
                        (breathing_rate_input inp) (caffeine_input inp)
                        (alcohol_input inp) (sleep_slider inp) in
      render (Metric "🧠 Predicted Anxiety Severity (1-10)" (round2 (predicted_severity form)))
  | None => render (Warning "⚠ Please upload a valid dataset to use prediction.")
  end.

(** Line 123: the rows whose Gender or Occupation matches the search
    text. *)
Definition filtered_df (d : DataFrame) (search_text : string) : exn + DataFrame :=
  match getitem d "Gender" with
  | inl e => inl e
  | inr g =>
      match PdStr.contains re_beyond g search_text with
      | inl e => inl e
      | inr by_gender =>
          match getitem d "Occupation" with
          | inl e => inl e
          | inr o =>
              match PdStr.contains re_beyond o search_text with
              | inl e => inl e
              | inr by_occupation =>
                  inr (PdStr.getitem_mask d (PdStr.mask_or by_gender by_occupation))
              end
          end
      end
  end.

(** Lines 117-132. *)
Definition reports (inp : Inputs) : run unit :=
  render (Title "📄 Reports & Insights") ;;;
  d <- get_df ;;
  match d with
  | Some d =>
      filtered <- call (filtered_df d (search_text inp)) ;;
      render (Write "📋 Filtered Dataset Preview:") ;;;
      render (Dataframe filtered) ;;;
      let csv := Utf8.encode (Csv.to_csv format_number d) in
      render (DownloadButton "⬇ Download CSV Report" csv "Anxiety_Report.csv" "text/csv")
  | None => render (Warning "⚠ Please upload a dataset to generate reports.")
  end.

(** The whole script: the sidebar, the loader, then the chosen page. *)
Definition main (inp : Inputs) : run unit :=
  render (SidebarTitle "📌 Click Below") ;;;
  render (SidebarTitle "📂 Upload Data") ;;;
  set_df None ;;;
  load_data (uploaded_file inp) ;;;
  match page inp with
  | Home => home
  | DataVisualization => data_visualization
  | Predictions => predictions inp
  | Reports => reports inp
  end.

Definition script (inp : Inputs) : outcome unit := main inp (mkSession None []).

(** The Dataset Loader alone, on an uploaded table. *)
Definition load (raw : DataFrame) : outcome unit :=
  load_data (Some raw) (mkSession None []).

End Script.

End Layout.

(** ** The notions the specification speaks in *)

Module Spec.
Import Py Pd St Layout.

(** The column names of an uploaded table once trimmed. *)
Definition headers (raw : DataFrame) : list string := map strip (columns raw).

(** The table has every required column. *)
Definition has_required (raw : DataFrame) : Prop :=
  forall c, In c required_columns -> In c (headers raw).

(** No two columns of the table have the same name once trimmed. *)
Definition distinct_headers (raw : DataFrame) : Prop := NoDup (headers raw).

(** The same, as a test that computes. *)
Fixpoint distinctb (l : list string) : bool :=
  match l with
  | [] => true
  | x :: l' => negb (Py.contains l' x) && distinctb l'
  end.

(** The table is rectangular and every cell has the type of its column: a
    number in a numeric column, a string or a missing value in a column
    of objects.  Every frame [read_csv] returns is like this. *)
Definition cell_ok (dt : dtype) (c : cell) : bool :=
  match dt, c with
  | Numeric, Num _ => true
  | Numeric, Str _ => false
  | Object, Num x => is_nan x
  | Object, Str _ => true
  end.

Definition row_ok (dts : list dtype) (r : row) : Prop := Forall2 (fun dt c => cell_ok dt c = true) dts r.2.

Definition well_formed (d : DataFrame) : Prop :=
  length (dtypes d) = length (columns d) /\ Forall (row_ok (dtypes d)) (rows d).

(** The seven columns designated numeric. *)
Definition numeric_columns : list string := skipn 2 required_columns.

Fixpoint index_of (hs : list string) (c : string) : option nat :=
  match hs with
  | [] => None
  | h :: hs' => if String.eqb h c then Some 0%nat else option_map S (index_of hs' c)
  end.

(** The value a row has in the column named [c]. *)
Definition value (hs : list string) (c : string) (r : row) : cell :=
  match index_of hs c with
  | Some j => cell_at j r.2
  | None => NaN
  end.

(** The dtype of the column named [c]. *)
Definition dtype_of (d : DataFrame) (c : string) : option dtype :=
  match index_of (columns d) c with
  | Some j => dtypes d !! j
  | None => None
  end.

(** The values of the column named [c], top to bottom. *)
Definition column_values (d : DataFrame) (c : string) : list cell :=
  map (value (columns d) c) (rows d).

(** A row is complete when it misses no value in the required columns. *)
Definition complete (hs : list string) (r : row) : bool :=
  forallb (fun c => notna (value hs c r)) required_columns.

Section Coercion.
Variable parse_number : string -> option float.

(** A row after coercion: the cells of the columns named in [names]
    are converted, all others are left as they are. *)
Definition coerce_row_on (names hs : list string) (r : row) : row :=
  (r.1, imap (fun j c => match hs !! j with
                         | Some h => if Py.contains names h then coerce parse_number c else c
                         | None => c
                         end) r.2).

Definition coerce_row : list string -> row -> row := coerce_row_on numeric_columns.

Definition coerce_dtypes_on (names hs : list string) (dts : list dtype) : list dtype :=
  imap (fun j dt => match hs !! j with
                    | Some h => if Py.contains names h then Numeric else dt
                    | None => dt
                    end) dts.

(** The Dataset the specification describes for a table that has the
    required columns: trimmed names, the seven columns numeric, the
    complete rows after coercion. *)
Definition loaded (raw : DataFrame) : DataFrame :=
  mkDataFrame (headers raw)
    (coerce_dtypes_on numeric_columns (headers raw) (dtypes raw))
    (List.filter (complete (headers raw)) (map (coerce_row (headers raw)) (rows raw))).

(** A validated Dataset: what the Loader leaves in [df] for some
    well-formed uploaded table with distinct column names. *)
Definition validated (ds : DataFrame) : Prop :=
  exists raw, well_formed raw /\ distinct_headers raw /\
              load parse_number raw = Done tt (mkSession (Some ds) []).
End Coercion.

(** The column named [c] holds text. *)
Definition text_column (d : DataFrame) (c : string) : Prop := dtype_of d c = Some Object.

(** What section 3 of the specification promises of a validated Dataset:
    distinct column names with the required nine among them, the seven
    designated columns numeric, no value missing in a required column,
    every cell of the type of its column, and as many cells in a row as
    there are columns. *)
Record dataset_invariant (ds : DataFrame) : Prop := {
  inv_distinct : NoDup (columns ds);
  inv_required : forall c, In c required_columns -> In c (columns ds);
  inv_numeric : forall c, In c numeric_columns -> dtype_of ds c = Some Numeric;
  inv_present : forall r c, In r (rows ds) -> In c required_columns ->
                            isna (value (columns ds) c r) = false;
  inv_typed : forall r c dt, In r (rows ds) -> dtype_of ds c = Some dt ->
                             cell_ok dt (value (columns ds) c r) = true;
  inv_rectangular : forall r, In r (rows ds) -> length r.2 = length (columns ds)
}.

(** The arithmetic mean of a list of numbers: their sum over their count.
    In binary64 a sum depends on the order of adding; the order is
    numpy's ([Pd.np_sum]). *)
Definition arithmetic_mean (xs : list float) : float :=
  (np_sum xs / of_nat (length xs))%float.

(** The five terms added one after the other, which is numpy's order for
    fewer than 8 numbers. *)
Definition sum_of_five (a b c d e : float) : float := ((((a + b) + c) + d) + e)%float.

(** [n] is a whole number nearest to [M / 2^k]: at most one half away,
    and even when exactly one half away. *)
Definition nearest_integer (M k n : Z) : Prop :=
  (2 * Z.abs (M - n * 2 ^ k) <= 2 ^ k)%Z /\
  ((2 * Z.abs (M - n * 2 ^ k) = 2 ^ k)%Z -> Z.even n = true).

(** [r] is [x] rounded to a whole number.  A finite [x] with a negative
    exponent [e] is [M / 2^(-e)] for its signed mantissa [M]; [r] is then
    the binary64 number of a whole number nearest to it (a zero with the
    sign of [x]).  Any other [x] has no fraction and is left as it is. *)
Definition nearest_whole (x r : float) : Prop :=
  match Prim2SF x with
  | S754_finite s m e =>
      if (e <? 0)%Z
      then exists n, nearest_integer (signed s m) (- e) n /\ r = whole s n
      else r = x
  | _ => r = x
  end.

(** [v] is [x] rounded to 2 decimal places: the hundredths of [x], rounded
    to a whole number, over 100. *)
Definition rounded_to_2_decimals (x v : float) : Prop :=
  exists r, nearest_whole (x * of_Z 100) r /\ v = (r / of_Z 100)%float.

(** The numbers of the column named [c]. *)
Definition column_numbers (d : DataFrame) (c : string) : list float :=
  map float_of_cell (column_values d c).

(** The five columns the Metrics View averages. *)
Definition metric_columns : list string :=
  ["Stress Level (1-10)"; "Heart Rate (bpm during attack)"; "Breathing Rate (breaths/min)";
   "Caffeine Intake (mg/day)"; "Alcohol Consumption (drinks/week)"].

(** The five terms of the Scenario Estimator: stress as it is, heart rate
    over 20, breathing rate over 5, caffeine over 100, alcohol as it is. *)
Definition scenario_terms (stress heart breathing caff alc : Z) : list float :=
  [of_Z stress; (of_Z heart / of_Z 20)%float; (of_Z breathing / of_Z 5)%float;
   (of_Z caff / of_Z 100)%float; of_Z alc].

(** A string in lower case. *)
Fixpoint lowercase (s : string) : string :=
  match s with
  | EmptyString => EmptyString
  | String c s' => String (Re.lower c) (lowercase s')
  end.

(** [needle] is a substring of [hay] when case is ignored. *)
Definition contains_ci (needle hay : string) : Prop :=
  exists pre suf, lowercase hay = pre ++ lowercase needle ++ suf.

(** A cell is a text that contains [needle], case ignored. *)
Definition text_contains (needle : string) (c : cell) : Prop :=
  exists t, c = Str t /\ contains_ci needle t.

(** The membership condition of the Filtered View: the row's Gender or its
    Occupation contains the search string. *)
Definition matches (hs : list string) (needle : string) (r : row) : Prop :=
  text_contains needle (value hs "Gender" r) \/ text_contains needle (value hs "Occupation" r).

(** The test [str.contains] applies to one cell, for a compiled pattern. *)
Definition cell_matches (r : Re.regex) (c : cell) : bool :=
  match c with
  | Str t => Re.search r t
  | Num _ => false
  end.

(** A search string in which no character has a meaning of its own in a
    regular expression. *)
Definition is_literal (pat : string) : bool :=
  forallb (fun c => negb (Re.is_meta c)) (list_ascii_of_string pat).





(** What a page shows when there is no dataset: its heading and one
    warning, nothing computed. *)
Definition no_dataset_view (p : Page) : list element :=
  match p with
  | Home =>
      [Title "🏠 Anxiety Attack Data Analysis";
       Write "Analyze and predict anxiety attack severity using dataset insights.";
       Warning "⚠ Please upload a valid dataset to see insights."]
  | DataVisualization =>
      [Title "📊 Data Visualization";
       Warning "⚠ Please upload a valid dataset to view visualizations."]
  | Predictions =>
      [Title "🤖 Anxiety Severity Prediction";
       Warning "⚠ Please upload a valid dataset to use prediction."]
  | Reports =>
      [Title "📄 Reports & Insights";
       Warning "⚠ Please upload a dataset to generate reports."]
  end.

(** What the sidebar shows on every run. *)
Definition sidebar : list element :=
  [SidebarTitle "📌 Click Below"; SidebarTitle "📂 Upload Data"].

(** Every character of [s] is white space. *)
Definition blank (s : string) : bool := forallb is_space (list_ascii_of_string s).

(** [s] begins with white space; [s] ends with white space. *)
Definition starts_with_space (s : string) : bool :=
  match s with
  | String c _ => is_space c
  | EmptyString => false
  end.

Definition ends_with_space (s : string) : bool := starts_with_space (reverse s).

(** [h] is [name] without the white space around it: what is cut off is
    white space, and [h] neither begins nor ends with white space. *)
Definition trimmed_of (name h : string) : Prop :=
  exists pre suf,
    name = pre ++ h ++ suf /\ blank pre = true /\ blank suf = true /\
    starts_with_space h = false /\ ends_with_space h = false.

(** Once the names are trimmed, [c] is the name of two columns. *)
Definition repeated_header (raw : DataFrame) (c : string) : Prop :=
  exists i j, i <> j /\ headers raw !! i = Some c /\ headers raw !! j = Some c.

(** A part of the script that only reads the Dataset: however it ends,
    [df] is what it was and what was rendered before is still there, with
    more after it or not. *)
Definition keeps_dataset {A} (m : run A) : Prop :=
  forall s, df (final (m s)) = df s /\
            exists more, rendered (final (m s)) = (rendered s ++ more)%list.

(** A search string that begins with a repetition sign. *)
Definition starts_with_repetition (pat : string) : bool :=
  match pat with
  | String c _ => existsb (Ascii.eqb c) (list_ascii_of_string "*+?")
  | EmptyString => false
  end.

(** The first three figures of the Chart View, with their headings, for
    the heart-rate column at position [jh] and the breathing-rate column
    at position [jb]; then the heading of the heatmap. *)
Definition first_charts (d : DataFrame) (jh jb : nat) : list element :=
  [Title "📊 Data Visualization";
   Subheader "🔹 Gender vs. Anxiety Severity (Bar Chart)";
   Pyplot [Barplot "Gender" "Severity of Anxiety Attack (1-10)" d];
   Subheader "🔹 Sleep Hours vs. Stress Level (Scatter Plot)";
   Pyplot [Scatterplot "Sleep Hours" "Stress Level (1-10)" d];
   Subheader "🔹 Heart Rate & Breathing Rate Distribution (Histogram)";
   Pyplot [Histplot (OneColumn jh (column d jh)) true "blue" "Heart Rate";
           Histplot (OneColumn jb (column d jb)) true "red" "Breathing Rate"; Legend];
   Subheader "🔹 Heatmap (Feature Correlation)"].

End Spec.

(** ** Concrete tables and runs *)

Module Examples.
Import Py Pd St Layout.

(** A number reader for strings of decimal digits, standing in for the
    reader of [pd.to_numeric] on such strings. *)
Fixpoint digits_value (s : string) (acc : Z) : option Z :=
  match s with
  | EmptyString => Some acc
  | String c s' =>
      let n := nat_of_ascii c in
      if ((48 <=? n) && (n <=? 57))%nat
      then digits_value s' (10 * acc + Z.of_nat (n - 48))
      else None
  end.

Definition parse_digits (s : string) : option float :=
  match s with
  | EmptyString => None
  | _ => option_map of_Z (digits_value s 0)
  end.

(** A stand-in for [DataFrame.corr], which no example looks into. *)
Definition no_corr (d : DataFrame) : exn + list (list float) := inr [].

(** A stand-in for Python's [re] on the patterns [Re.compile] hands on:
    the examples search for literals, dots and repetition signs only. *)
Definition no_beyond (pat : string) : exn + (string -> bool) := inl ReError.

(** A number writer for whole numbers from 0 on: their decimal digits, as
    pandas writes the numbers of an integer column. *)
Definition format_digits (x : float) : string :=
  match Prim2SF x with
  | S754_finite false m e =>
      NilZero.string_of_uint
        (N.to_uint (Z.to_N (if (e <? 0)%Z then Z.pos m / 2 ^ (- e) else Z.pos m * 2 ^ e)))
  | _ => "0"
  end.

Definition num (z : Z) : cell := Num (of_Z z).

(** An upload with blanks around two names, a column of notes beside the
    required nine, a stress column read as text, and four rows: complete,
    stress not a number, gender missing, complete with the note missing. *)
Definition survey : DataFrame :=
  mkDataFrame
    [" Gender"; "Occupation "; "Stress Level (1-10)"; "Heart Rate (bpm during attack)";
     "Breathing Rate (breaths/min)"; "Caffeine Intake (mg/day)";
     "Alcohol Consumption (drinks/week)"; "Severity of Anxiety Attack (1-10)";
     "Sleep Hours"; "Notes"]
    [Object; Object; Object; Numeric; Numeric; Numeric; Numeric; Numeric; Numeric; Object]
    [(0%nat, [Str "Male"; Str "Nurse"; Str "4"; num 80; num 20; num 100; num 2; num 5; num 7; NaN]);
     (1%nat, [Str "Female"; Str "Teacher"; Str "high"; num 90; num 22; num 50; num 0; num 6; num 6; Str "ok"]);
     (2%nat, [NaN; Str "Clerk"; Str "5"; num 85; num 21; num 0; num 1; num 4; num 8; Str "x"]);
     (3%nat, [Str "Female"; Str "Engineer"; Str "7"; num 100; num 30; num 200; num 3; num 8; num 5; NaN])].

(** The one-row Dataset of the specification's example. *)
Definition one_row : DataFrame :=
  mkDataFrame required_columns
    [Object; Object; Numeric; Numeric; Numeric; Numeric; Numeric; Numeric; Numeric]
    [(0%nat, [Str "Male"; Str "X"; num 4; num 80; num 20; num 100; num 2; num 5; num 7])].

(** An upload whose only row misses its sleep hours. *)
Definition no_complete_row : DataFrame :=
  mkDataFrame required_columns
    [Object; Object; Numeric; Numeric; Numeric; Numeric; Numeric; Numeric; Numeric]
    [(0%nat, [Str "Male"; Str "X"; num 4; num 80; num 20; num 100; num 2; num 5; NaN])].

(** An upload without the columns Gender and Sleep Hours. *)
Definition two_missing : DataFrame :=
  mkDataFrame
    ["Sex"; "Occupation"; "Stress Level (1-10)"; "Heart Rate (bpm during attack)";
     "Breathing Rate (breaths/min)"; "Caffeine Intake (mg/day)";
     "Alcohol Consumption (drinks/week)"; "Severity of Anxiety Attack (1-10)"]
    [Object; Object; Numeric; Numeric; Numeric; Numeric; Numeric; Numeric]
    [(0%nat, [Str "Male"; Str "X"; num 4; num 80; num 20; num 100; num 2; num 5])].

(** Two rows that differ in gender only. *)
Definition male_female : DataFrame :=
  mkDataFrame required_columns
    [Object; Object; Numeric; Numeric; Numeric; Numeric; Numeric; Numeric; Numeric]
    [(0%nat, [Str "Male"; Str "X"; num 4; num 80; num 20; num 100; num 2; num 5; num 7]);
     (1%nat, [Str "Female"; Str "Y"; num 6; num 90; num 25; num 0; num 0; num 7; num 6])].

(** An upload in which gender is coded by a number. *)
Definition coded_gender : DataFrame :=
  mkDataFrame required_columns
    [Numeric; Object; Numeric; Numeric; Numeric; Numeric; Numeric; Numeric; Numeric]
    [(0%nat, [num 0; Str "X"; num 4; num 80; num 20; num 100; num 2; num 5; num 7]);
     (1%nat, [num 1; Str "Y"; num 6; num 90; num 25; num 0; num 0; num 7; num 6])].

(** An upload whose first row misses its gender and whose second row has
    the occupation "007": the column is read as text because of "Nurse". *)
Definition leading_zero : DataFrame :=
  mkDataFrame required_columns
    [Object; Object; Numeric; Numeric; Numeric; Numeric; Numeric; Numeric; Numeric]
    [(0%nat, [NaN; Str "Nurse"; num 6; num 90; num 25; num 0; num 0; num 7; num 6]);
     (1%nat, [Str "Male"; Str "007"; num 4; num 80; num 20; num 100; num 2; num 5; num 7])].

(** The file that upload is read from. *)
Definition leading_zero_file : string :=
  join (String Csv.LF "")
    ["Gender,Occupation,Stress Level (1-10),Heart Rate (bpm during attack),Breathing Rate (breaths/min),Caffeine Intake (mg/day),Alcohol Consumption (drinks/week),Severity of Anxiety Attack (1-10),Sleep Hours";
     ",Nurse,6,90,25,0,0,7,6";
     "Male,007,4,80,20,100,2,5,7";
     ""].


(** An upload with two columns of sleep hours, told apart by a blank only. *)
Definition twice_sleep : DataFrame :=
  mkDataFrame (required_columns ++ [" Sleep Hours"])
    [Object; Object; Numeric; Numeric; Numeric; Numeric; Numeric; Numeric; Numeric; Numeric]
    [(0%nat, [Str "Male"; Str "X"; num 4; num 80; num 20; num 100; num 2; num 5; num 7; num 8])].



(** An upload in which the occupation is coded by a number. *)
Definition coded_occupation : DataFrame :=
  mkDataFrame required_columns
    [Object; Numeric; Numeric; Numeric; Numeric; Numeric; Numeric; Numeric; Numeric]
    [(0%nat, [Str "Male"; num 3; num 4; num 80; num 20; num 100; num 2; num 5; num 7]);
     (1%nat, [Str "Female"; num 1; num 6; num 90; num 25; num 0; num 0; num 7; num 6])].

(** The widgets as Streamlit first shows them (lines 104-109, 122). *)
Definition defaults (p : Page) (upload : option DataFrame) : Inputs :=
  mkInputs p upload 0 0 5 80 20 100 2 7 "".

Definition searching (text : string) (upload : DataFrame) : Inputs :=
  mkInputs Reports (Some upload) 0 0 5 80 20 100 2 7 text.

End Examples.

(** * Verification *)

(** ** Lists of labels and positions *)

Module Facts.
Import Py Pd St Layout Spec.

Lemma contains_In l x : Py.contains l x = true <-> In x l.
Proof.
  unfold Py.contains. rewrite existsb_exists. split.
  - intros (y & Hy & He). apply String.eqb_eq in He. now subst.
  - intros H. exists x. split; [assumption | apply String.eqb_refl].
Qed.

Lemma contains_false l x : Py.contains l x = false <-> ~ In x l.
Proof.
  rewrite <- contains_In. destruct (Py.contains l x); split; intros; congruence.
Qed.

Lemma filter_nil_iff {A} (f : A -> bool) l :
  List.filter f l = [] <-> forall x, In x l -> f x = false.
Proof.
  induction l as [|a l IH]; simpl.
  - split; [intros _ x [] | reflexivity].
  - destruct (f a) eqn:E; split.
    + discriminate.
    + intros H. rewrite (H a) in E by now left. discriminate.
    + intros H x [<- | Hx]; [assumption | now apply IH].
    + intros H. apply IH. intros x Hx. apply H. now right.
Qed.

Lemma index_of_lookup hs c j : index_of hs c = Some j -> hs !! j = Some c.
Proof.
  revert j. induction hs as [|h hs IH]; simpl; intros j; [discriminate|].
  destruct (String.eqb h c) eqn:E.
  - intros [= <-]. apply String.eqb_eq in E. now subst.
  - destruct (index_of hs c) as [k|]; simpl; [|discriminate].
    intros [= <-]. simpl. now apply IH.
Qed.

Lemma index_of_In hs c : In c hs -> exists j, index_of hs c = Some j.
Proof.
  induction hs as [|h hs IH]; simpl; [intros []|].
  intros H. destruct (String.eqb h c) eqn:E; [now exists 0%nat|].
  destruct H as [-> | H]; [rewrite String.eqb_refl in E; discriminate|].
  destruct (IH H) as (j & ->). now exists (S j).
Qed.

Lemma index_of_None hs c : index_of hs c = None -> ~ In c hs.
Proof.
  intros H Hin. destruct (index_of_In _ _ Hin) as (j & Hj). congruence.
Qed.

Lemma get_loc_from_absent i hs c : ~ In c hs -> get_loc_from i hs c = [].
Proof.
  revert i. induction hs as [|h hs IH]; simpl; intros i Hn; [reflexivity|].
  destruct (String.eqb h c) eqn:E.
  - apply String.eqb_eq in E. subst. exfalso. apply Hn. now left.
  - apply IH. intros H. apply Hn. now right.
Qed.

(** With distinct labels, a label has the one position [index_of] finds. *)
Lemma get_loc_from_unique i hs c j :
  NoDup hs -> index_of hs c = Some j -> get_loc_from i hs c = [(i + j)%nat].
Proof.
  intros Hnd. revert i j. induction Hnd as [|h hs Hh Hnd IH]; simpl; intros i j; [discriminate|].
  destruct (String.eqb h c) eqn:E.
  - intros [= <-]. apply String.eqb_eq in E. subst.
    rewrite get_loc_from_absent; [f_equal; lia|].
    now rewrite <- list_elem_of_In.
  - destruct (index_of hs c) as [k|] eqn:Ek; simpl; [|discriminate].
    intros [= <-]. rewrite (IH (S i) k eq_refl). f_equal. lia.
Qed.

Lemma get_loc_unique d c j :
  NoDup (columns d) -> index_of (columns d) c = Some j -> get_loc d c = [j].
Proof. intros Hnd Hj. unfold get_loc. now rewrite (get_loc_from_unique 0 _ _ j). Qed.

Lemma distinctb_NoDup l : distinctb l = true -> NoDup l.
Proof.
  induction l as [|x l IH]; simpl; [constructor|].
  intros H. apply andb_true_iff in H as [Hx Hl].
  apply negb_true_iff, contains_false in Hx.
  constructor; [now rewrite list_elem_of_In | auto].
Qed.

Lemma lookup_distinct (hs : list string) i j c :
  NoDup hs -> hs !! i = Some c -> hs !! j = Some c -> i = j.
Proof. intros Hnd Hi Hj. eapply NoDup_lookup; eauto. Qed.

End Facts.

(** ** The Dataset Loader *)

Module LoaderFacts.
Import Py Pd St Layout Spec Facts.

Ltac run_unfold :=
  unfold bind, ret, call, raise, render, set_df, get_df; simpl.

Lemma zip_with_map_r {A B C} (f : A -> B -> C) (g : A -> B) l :
  zip_with f l (map g l) = map (fun a => f a (g a)) l.
Proof. induction l as [|a l IH]; simpl; [reflexivity | now rewrite IH]. Qed.

Lemma coerce_idem parse c : coerce parse (coerce parse c) = coerce parse c.
Proof.
  destruct c as [x|s]; simpl; [reflexivity|].
  destruct (parse s); reflexivity.
Qed.

Section Loader.
Variable parse_number : string -> option float.

Local Abbreviation coerce := (coerce parse_number).
Local Abbreviation convert_column := (convert_column parse_number).

(** One pass of the loop of line 38, on a column that exists once. *)
Lemma convert_column_step d c j out :
  NoDup (columns d) -> index_of (columns d) c = Some j ->
  convert_column c (mkSession (Some d) out) =
  Done tt (mkSession
             (Some (mkDataFrame (columns d) (<[j := Numeric]> (dtypes d))
                      (map (fun r : row => (r.1, <[j := coerce (cell_at j r.2)]> r.2)) (rows d))))
             out).
Proof.
  intros Hnd Hj. unfold Layout.convert_column, the_df, getitem. run_unfold.
  rewrite (get_loc_unique d c j Hnd Hj). simpl.
  unfold setitem. simpl. rewrite map_map, zip_with_map_r. reflexivity.
Qed.

(** Converting one cell in place is converting the row on that name. *)
Lemma insert_coerce_row hs c j (r : row) :
  NoDup hs -> hs !! j = Some c ->
  (r.1, <[j := coerce (cell_at j r.2)]> r.2) = coerce_row_on parse_number [c] hs r.
Proof.
  intros Hnd Hj. unfold coerce_row_on. f_equal.
  apply list_eq. intros i. rewrite list_lookup_imap.
  destruct (decide (i = j)) as [->|Hne].
  - unfold cell_at. destruct (r.2 !! j) as [x|] eqn:Ex.
    + rewrite list_lookup_insert_eq by (eapply lookup_lt_Some; eauto).
      simpl. rewrite Hj. simpl. now rewrite String.eqb_refl.
    + rewrite list_insert_ge by (now apply lookup_ge_None). now rewrite Ex.
  - rewrite list_lookup_insert_ne by congruence.
    destruct (r.2 !! i) as [x|]; simpl; [|reflexivity].
    destruct (hs !! i) as [h|] eqn:Eh; [|reflexivity].
    simpl. destruct (String.eqb h c) eqn:E; [|reflexivity].
    apply String.eqb_eq in E. subst h. exfalso. apply Hne.
    eapply lookup_distinct; eauto.
Qed.

Lemma coerce_row_on_cons hs c names (r : row) :
  coerce_row_on parse_number names hs (coerce_row_on parse_number [c] hs r) =
  coerce_row_on parse_number (c :: names) hs r.
Proof.
  unfold coerce_row_on. simpl. f_equal.
  apply list_eq. intros i. rewrite !list_lookup_imap.
  destruct (r.2 !! i) as [x|]; simpl; [|reflexivity]. f_equal.
  destruct (hs !! i) as [h|]; [|reflexivity].
  destruct (String.eqb h c); simpl.
  - destruct (Py.contains names h); [apply coerce_idem | reflexivity].
  - reflexivity.
Qed.

Lemma coerce_row_on_nil hs (r : row) : coerce_row_on parse_number [] hs r = r.
Proof.
  unfold coerce_row_on. destruct r as [i cs]. simpl. f_equal.
  apply list_eq. intros k. rewrite list_lookup_imap.
  destruct (cs !! k); simpl; [|reflexivity].
  now destruct (hs !! k).
Qed.

Lemma insert_coerce_dtypes hs c j dts :
  NoDup hs -> hs !! j = Some c ->
  <[j := Numeric]> dts = coerce_dtypes_on [c] hs dts.
Proof.
  intros Hnd Hj. unfold coerce_dtypes_on.
  apply list_eq. intros i. rewrite list_lookup_imap.
  destruct (decide (i = j)) as [->|Hne].
  - destruct (dts !! j) as [x|] eqn:Ex.
    + rewrite list_lookup_insert_eq by (eapply lookup_lt_Some; eauto).
      simpl. rewrite Hj. simpl. now rewrite String.eqb_refl.
    + rewrite list_insert_ge by (now apply lookup_ge_None). now rewrite Ex.
  - rewrite list_lookup_insert_ne by congruence.
    destruct (dts !! i) as [x|]; simpl; [|reflexivity].
    destruct (hs !! i) as [h|] eqn:Eh; [|reflexivity].
    simpl. destruct (String.eqb h c) eqn:E; [|reflexivity].
    apply String.eqb_eq in E. subst h. exfalso. apply Hne.
    eapply lookup_distinct; eauto.
Qed.

Lemma coerce_dtypes_on_cons hs c names dts :
  coerce_dtypes_on names hs (coerce_dtypes_on [c] hs dts) = coerce_dtypes_on (c :: names) hs dts.
Proof.
  unfold coerce_dtypes_on. simpl.
  apply list_eq. intros i. rewrite !list_lookup_imap.
  destruct (dts !! i) as [x|]; simpl; [|reflexivity]. f_equal.
  destruct (hs !! i) as [h|]; [|reflexivity].
  destruct (String.eqb h c); simpl; [|reflexivity].
  now destruct (Py.contains names h).
Qed.

Lemma coerce_dtypes_on_nil hs dts : coerce_dtypes_on [] hs dts = dts.
Proof.
  unfold coerce_dtypes_on. apply list_eq. intros k. rewrite list_lookup_imap.
  destruct (dts !! k); simpl; [|reflexivity].
  now destruct (hs !! k).
Qed.

(** The whole loop of lines 38-39: every named column is converted. *)
Lemma convert_columns names : forall d out,
  NoDup (columns d) -> (forall c, In c names -> In c (columns d)) ->
  for_each names convert_column (mkSession (Some d) out) =
  Done tt (mkSession
             (Some (mkDataFrame (columns d)
                      (coerce_dtypes_on names (columns d) (dtypes d))
                      (map (coerce_row_on parse_number names (columns d)) (rows d))))
             out).
Proof.
  induction names as [|c names IH]; intros d out Hnd Hin.
  - simpl. unfold ret. destruct d as [cs dts rs]. simpl.
    rewrite coerce_dtypes_on_nil. f_equal. f_equal. f_equal. f_equal.
    rewrite <- (map_id rs) at 1. apply map_ext. intros r.
    now rewrite coerce_row_on_nil.
  - destruct (index_of_In (columns d) c) as (j & Hj); [apply Hin; now left|].
    pose proof (index_of_lookup _ _ _ Hj) as Hl.
    simpl. unfold bind at 1. rewrite (convert_column_step d c j out Hnd Hj).
    rewrite IH; simpl; [|assumption|intros; apply Hin; now right].
    f_equal. f_equal. f_equal. f_equal.
    + rewrite (insert_coerce_dtypes (columns d) c j) by assumption.
      apply coerce_dtypes_on_cons.
    + rewrite map_map. apply map_ext. intros r.
      rewrite (insert_coerce_row (columns d) c j) by assumption.
      apply coerce_row_on_cons.
Qed.

End Loader.
End LoaderFacts.

Module LoadFacts.
Import Py Pd St Layout Spec Facts LoaderFacts.

Lemma has_required_iff raw : has_required raw <-> missing_cols (strip_columns raw) = [].
Proof.
  unfold has_required, missing_cols, headers. rewrite filter_nil_iff. simpl.
  split; intros H c Hc.
  - apply negb_false_iff, contains_In. now apply H.
  - apply contains_In, negb_false_iff. now apply H.
Qed.

(** [dropna] looks at the one column of each name of [subset]. *)
Lemma subset_positions_distinct d subset :
  NoDup (columns d) -> (forall c, In c subset -> In c (columns d)) ->
  exists js, subset_positions d subset = inr js /\
             forall r, complete_on js r = forallb (fun c => notna (value (columns d) c r)) subset.
Proof.
  intros Hnd. induction subset as [|c subset IH]; intros Hin.
  - exists []. split; reflexivity.
  - destruct IH as (js & Hjs & Hc); [intros; apply Hin; now right|].
    destruct (index_of_In (columns d) c) as (j & Hj); [apply Hin; now left|].
    exists (j :: js). split.
    + simpl. rewrite (get_loc_unique d c j Hnd Hj), Hjs. reflexivity.
    + intros r. simpl. unfold value at 1. rewrite Hj. f_equal. apply Hc.
Qed.

Lemma dropna_distinct d subset :
  NoDup (columns d) -> (forall c, In c subset -> In c (columns d)) ->
  dropna d subset =
  inr (mkDataFrame (columns d) (dtypes d)
         (List.filter (fun r => forallb (fun c => notna (value (columns d) c r)) subset) (rows d))).
Proof.
  intros Hnd Hin. unfold dropna.
  destruct (subset_positions_distinct d subset Hnd Hin) as (js & -> & Hc).
  f_equal. f_equal. apply List.filter_ext. exact Hc.
Qed.

Lemma complete_iff hs r :
  complete hs r = true <->
  forall c, In c required_columns -> isna (value hs c r) = false.
Proof.
  unfold complete. rewrite forallb_forall. unfold notna.
  split; intros H c Hc; specialize (H c Hc); now apply negb_true_iff.
Qed.

Lemma coerce_is_num parse c : exists x, coerce parse c = Num x.
Proof.
  destruct c as [x|s]; simpl; [now exists x|].
  destruct (parse s) as [x|]; [now exists x | now exists nan].
Qed.

Section Load.
Variable parse_number : string -> option float.

Lemma load_data_ok raw s :
  has_required raw -> distinct_headers raw ->
  load_data parse_number (Some raw) s =
  Done tt (mkSession (Some (loaded parse_number raw)) (rendered s)).
Proof.
  intros Hreq Hnd. unfold load_data.
  cbv beta iota delta [bind set_df the_df get_df ret df rendered].
  apply has_required_iff in Hreq as Hm. rewrite Hm.
  assert (Hc : forall c, In c (skipn 2 required_columns) -> In c (columns (strip_columns raw))).
  { intros c Hc. apply Hreq. unfold required_columns in *. simpl in *. tauto. }
  rewrite (convert_columns parse_number (skipn 2 required_columns) (strip_columns raw) _ Hnd Hc).
  rewrite dropna_distinct; [destruct s; reflexivity | exact Hnd | exact Hreq].
Qed.

Lemma load_data_missing raw s :
  missing_cols (strip_columns raw) <> [] ->
  load_data parse_number (Some raw) s =
  Done tt (mkSession None
             (rendered s ++ [SidebarError ("❌ Missing columns in dataset: " ++
                                           repr_list (missing_cols (strip_columns raw)))])).
Proof.
  intros Hm. unfold load_data.
  cbv beta iota delta [bind set_df the_df get_df ret df rendered].
  destruct (missing_cols (strip_columns raw)) eqn:E; [congruence|]. reflexivity.
Qed.

Lemma load_ok raw :
  has_required raw -> distinct_headers raw ->
  load parse_number raw = Done tt (mkSession (Some (loaded parse_number raw)) []).
Proof. intros. unfold load. now rewrite load_data_ok. Qed.

Lemma load_missing raw :
  missing_cols (strip_columns raw) <> [] ->
  load parse_number raw =
  Done tt (mkSession None
             [SidebarError ("❌ Missing columns in dataset: " ++
                            repr_list (missing_cols (strip_columns raw)))]).
Proof. intros. unfold load. now rewrite load_data_missing. Qed.

Lemma load_some_required raw ds s :
  load parse_number raw = Done tt (mkSession (Some ds) s) -> has_required raw.
Proof.
  intros H. apply has_required_iff.
  destruct (missing_cols (strip_columns raw)) eqn:E; [reflexivity|].
  rewrite load_missing in H by (rewrite E; discriminate). discriminate.
Qed.

Lemma validated_loaded ds :
  validated parse_number ds ->
  exists raw, well_formed raw /\ distinct_headers raw /\ has_required raw /\ ds = loaded parse_number raw.
Proof.
  intros (raw & Hwf & Hnd & Hload). exists raw.
  pose proof (load_some_required _ _ _ Hload) as Hreq.
  rewrite (load_ok raw Hreq Hnd) in Hload. injection Hload as <-. auto.
Qed.

End Load.
End LoadFacts.

(** ** What holds of every validated Dataset *)

Module DatasetFacts.
Import Py Pd St Layout Spec Facts LoaderFacts LoadFacts.

Lemma numeric_required c : In c numeric_columns -> In c required_columns.
Proof. unfold numeric_columns, required_columns. simpl. tauto. Qed.


Lemma metric_numeric c : In c metric_columns -> In c numeric_columns.
Proof. unfold metric_columns, numeric_columns, required_columns. simpl. tauto. Qed.

Section Dataset.
Variable parse_number : string -> option float.

Lemma loaded_invariant raw :
  well_formed raw -> distinct_headers raw -> has_required raw ->
  dataset_invariant (loaded parse_number raw).
Proof.
  intros [Hlen Hrows] Hnd Hreq.
  assert (Hin : forall r, In r (rows (loaded parse_number raw)) ->
                 complete (headers raw) r = true /\
                 exists r0, In r0 (rows raw) /\ r = coerce_row parse_number (headers raw) r0).
  { intros r Hr. apply filter_In in Hr as [Hm Hc]. split; [assumption|].
    apply in_map_iff in Hm as (r0 & <- & Hr0). eauto. }
  assert (Hlook : forall c j, index_of (headers raw) c = Some j ->
                   exists dt0, dtypes raw !! j = Some dt0).
  { intros c j Hj. apply index_of_lookup, lookup_lt_Some in Hj.
    apply lookup_lt_is_Some. unfold headers in Hj. rewrite length_map in Hj. lia. }
  split.
  - exact Hnd.
  - exact Hreq.
  - intros c Hc. unfold dtype_of. cbn [loaded columns dtypes].
    destruct (index_of_In (headers raw) c) as (j & Hj); [now apply Hreq, numeric_required|].
    rewrite Hj. destruct (Hlook c j Hj) as (dt0 & Hdt).
    unfold coerce_dtypes_on. rewrite list_lookup_imap, Hdt. cbn [fmap option_fmap option_map].
    rewrite (index_of_lookup _ _ _ Hj). apply contains_In in Hc. now rewrite Hc.
  - intros r c Hr Hc. apply Hin in Hr as [Hcomp _].
    eapply (proj1 (complete_iff _ _)); eauto.
  - intros r c dt Hr. unfold dtype_of, value. cbn [loaded columns dtypes].
    destruct (index_of (headers raw) c) as [j|] eqn:Hj; [|discriminate].
    apply Hin in Hr as [_ (r0 & Hr0 & ->)].
    pose proof (index_of_lookup _ _ _ Hj) as Hh.
    unfold coerce_dtypes_on, coerce_row, coerce_row_on, cell_at. cbn [snd].
    rewrite !list_lookup_imap, Hh.
    set (b := Py.contains numeric_columns c).
    destruct (dtypes raw !! j) as [dt0|] eqn:Hdt; [|discriminate].
    cbn [fmap option_fmap option_map]. intros [= <-].
    rewrite List.Forall_forall in Hrows. specialize (Hrows r0 Hr0). unfold row_ok in Hrows.
    destruct (Forall2_lookup_l _ _ _ _ _ Hrows Hdt) as (c0 & Hc0 & Hok).
    rewrite Hc0. cbn [fmap option_fmap option_map default].
    destruct b; [|exact Hok].
    destruct (coerce_is_num parse_number c0) as (x & ->). reflexivity.
  - intros r Hr. apply Hin in Hr as [_ (r0 & Hr0 & ->)].
    unfold coerce_row, coerce_row_on. cbn [snd loaded columns].
    rewrite length_imap. unfold headers. rewrite length_map, <- Hlen.
    rewrite List.Forall_forall in Hrows. specialize (Hrows r0 Hr0).
    symmetry. exact (Forall2_length _ _ _ Hrows).
Qed.

Lemma validated_invariant ds : validated parse_number ds -> dataset_invariant ds.
Proof.
  intros H. apply validated_loaded in H as (raw & Hwf & Hnd & Hreq & ->).
  now apply loaded_invariant.
Qed.

End Dataset.

Section Invariant.
Variable ds : DataFrame.
Hypothesis Hinv : dataset_invariant ds.

Lemma getitem_one c :
  In c (columns ds) ->
  exists j, index_of (columns ds) c = Some j /\ getitem ds c = inr (OneColumn j (column ds j)).
Proof.
  intros Hc. destruct (index_of_In _ _ Hc) as (j & Hj). exists j. split; [assumption|].
  unfold getitem. now rewrite (get_loc_unique ds c j (inv_distinct _ Hinv) Hj).
Qed.

Lemma column_svalues c j :
  index_of (columns ds) c = Some j -> svalues (column ds j) = column_values ds c.
Proof.
  intros Hj. unfold column, column_values. cbn [svalues].
  apply map_ext. intros r. unfold value. now rewrite Hj.
Qed.

Lemma column_sdtype c j dt :
  index_of (columns ds) c = Some j -> dtype_of ds c = Some dt -> sdtype (column ds j) = dt.
Proof.
  intros Hj. unfold dtype_of, column. rewrite Hj. cbn [sdtype]. now intros ->.
Qed.

Lemma numeric_values c :
  In c numeric_columns ->
  Forall (fun v => exists x, v = Num x /\ is_nan x = false) (column_values ds c).
Proof.
  intros Hc. unfold column_values. apply Forall_forall. intros v Hv.
  apply list_elem_of_In, in_map_iff in Hv as (r & <- & Hr).
  pose proof (inv_typed _ Hinv r c Numeric Hr (inv_numeric _ Hinv c Hc)) as Hok.
  pose proof (inv_present _ Hinv r c Hr (numeric_required c Hc)) as Hna.
  destruct (value (columns ds) c r) as [x|s]; [|discriminate].
  exists x. split; [reflexivity | exact Hna].
Qed.

Lemma text_values c :
  In c required_columns -> text_column ds c ->
  Forall (fun v => exists s, v = Str s) (column_values ds c).
Proof.
  intros Hc Ht. unfold column_values. apply Forall_forall. intros v Hv.
  apply list_elem_of_In, in_map_iff in Hv as (r & <- & Hr).
  pose proof (inv_typed _ Hinv r c Object Hr Ht) as Hok.
  pose proof (inv_present _ Hinv r c Hr Hc) as Hna.
  destruct (value (columns ds) c r) as [x|s]; [|now exists s].
  simpl in Hok, Hna. congruence.
Qed.

End Invariant.
End DatasetFacts.

(** ** The Metrics View *)

Module MetricsFacts.
Import Py Pd St Layout Spec Facts LoaderFacts LoadFacts DatasetFacts.

Lemma filter_all {A} (f : A -> bool) l : (forall x, In x l -> f x = true) -> List.filter f l = l.
Proof.
  induction l as [|a l IH]; simpl; intros H; [reflexivity|].
  rewrite (H a) by now left. f_equal. apply IH. intros x Hx. apply H. now right.
Qed.

(** On a numeric column without missing values, [mean] is the arithmetic
    mean of all the rows, and NaN when there is no row. *)
Lemma mean_of_numbers (vs : list cell) :
  Forall (fun v => exists x, v = Num x /\ is_nan x = false) vs ->
  mean (mkSeries Numeric vs) =
  inr (match vs with
       | [] => nan
       | _ :: _ => arithmetic_mean (map float_of_cell vs)
       end).
Proof.
  intros Hvs. unfold mean. cbn [sdtype svalues].
  assert (Hx : forall x, In x (map float_of_cell vs) -> is_nan x = false).
  { intros x Hx. apply in_map_iff in Hx as (v & <- & Hv).
    rewrite List.Forall_forall in Hvs. destruct (Hvs v Hv) as (y & -> & Hy). exact Hy. }
  rewrite filter_all by (intros x H; now rewrite (Hx x H)).
  rewrite length_map.
  destruct vs as [|v vs]; [reflexivity|].
  cbn [length Nat.eqb]. f_equal. unfold arithmetic_mean. rewrite length_map.
  f_equal. f_equal.
  rewrite <- (map_id (map float_of_cell (v :: vs))) at 2.
  apply map_ext_in. intros x H. now rewrite (Hx x H).
Qed.

Section Metrics.
Variable ds : DataFrame.
Hypothesis Hinv : dataset_invariant ds.

(** The number one summary card shows for the column named [c]. *)
Lemma avg_metric_numeric label c s :
  In c numeric_columns ->
  avg_metric ds label c s =
  Done tt (mkSession (df s)
             (rendered s ++
              [Metric label (round2 (match rows ds with
                                     | [] => nan
                                     | _ :: _ => arithmetic_mean (column_numbers ds c)
                                     end))])).
Proof.
  intros Hc. unfold avg_metric.
  destruct (getitem_one ds Hinv c) as (j & Hj & Hg);
    [now apply (inv_required _ Hinv), numeric_required|].
  cbv beta iota delta [bind call ret raise]. rewrite Hg.
  pose proof (column_svalues ds c j Hj) as Hv.
  pose proof (column_sdtype ds c j Numeric Hj (inv_numeric _ Hinv c Hc)) as Hd.
  destruct (column ds j) as [dt vs] eqn:Ecol. cbn [svalues sdtype] in Hv, Hd. subst dt vs.
  rewrite (mean_of_numbers _ (numeric_values ds Hinv c Hc)).
  unfold render, column_numbers, column_values.
  destruct (rows ds); reflexivity.
Qed.

End Metrics.
End MetricsFacts.

(** ** The search of the Report View *)

Module SearchFacts.
Import Py Pd St Layout Spec Facts LoaderFacts LoadFacts DatasetFacts.

Lemma not_meta_not_dot c : Re.is_meta c = false -> Ascii.eqb c "." = false.
Proof.
  unfold Re.is_meta. simpl. intros H.
  repeat (apply orb_false_iff in H as [? H]). assumption.
Qed.

Lemma not_meta_not_repeat c :
  Re.is_meta c = false -> existsb (Ascii.eqb c) (list_ascii_of_string "*+?") = false.
Proof.
  unfold Re.is_meta. simpl. intros H.
  repeat (apply orb_false_iff in H as [? H]).
  repeat (apply orb_false_iff; split); auto.
Qed.

(** A literal search string is parsed to the sequence of its characters. *)
Lemma parse_literal pat :
  is_literal pat = true ->
  Re.parse pat = Some (map Re.Lit (list_ascii_of_string pat)).
Proof.
  unfold is_literal. induction pat as [|c pat IH]; simpl; [reflexivity|].
  intros H. apply andb_true_iff in H as [Hc H]. apply negb_true_iff in Hc.
  rewrite (IH H), (not_meta_not_dot c Hc), Hc. reflexivity.
Qed.

Lemma compile_literal beyond pat :
  is_literal pat = true ->
  Re.compile beyond pat = inr (Re.Atoms (map Re.Lit (list_ascii_of_string pat))).
Proof.
  intros H. unfold Re.compile. destruct pat as [|c pat]; [reflexivity|].
  rewrite (parse_literal _ H).
  unfold is_literal in H. simpl in H. apply andb_true_iff in H as [Hc _].
  apply negb_true_iff in Hc. now rewrite (not_meta_not_repeat c Hc).
Qed.

(** The characters of [p] match at the start of [s] exactly when [p] in
    lower case starts [s] in lower case. *)
Lemma match_here_literal p : forall s,
  Re.match_here (map Re.Lit (list_ascii_of_string p)) s = true <->
  exists suf, lowercase s = lowercase p ++ suf.
Proof.
  induction p as [|a p IH]; intros s; simpl.
  - split; [intros _; now exists (lowercase s) | reflexivity].
  - destruct s as [|c s]; simpl.
    + split; [discriminate | intros (suf & H); discriminate].
    + rewrite andb_true_iff, Ascii.eqb_eq, IH. split.
      * intros (-> & suf & ->). now exists suf.
      * intros (suf & H). injection H as -> ->. split; [reflexivity | now exists suf].
Qed.

(** Searching for the characters of [p] finds them exactly when [p] is a
    substring of [s], case ignored. *)
Lemma search_literal p : forall s,
  Re.search (Re.Atoms (map Re.Lit (list_ascii_of_string p))) s = true <-> contains_ci p s.
Proof.
  unfold contains_ci, Re.search. induction s as [|c s IH]; simpl.
  - rewrite orb_false_r, match_here_literal. simpl. split.
    + intros (suf & H). exists "", suf. exact H.
    + intros (pre & suf & H). destruct pre; [|discriminate]. now exists suf.
  - rewrite orb_true_iff, match_here_literal, IH. simpl. split.
    + intros [(suf & H) | (pre & suf & H)].
      * exists "", suf. exact H.
      * exists (String (Re.lower c) pre), suf. simpl. now rewrite H.
    + intros (pre & suf & H). destruct pre as [|x pre].
      * left. now exists suf.
      * right. injection H as _ H. now exists pre, suf.
Qed.

Lemma contains_ci_empty s : contains_ci "" s.
Proof. exists "", (lowercase s). reflexivity. Qed.

(** Selecting by a mask computed row by row is filtering. *)
Lemma select_rows_filter (f g : row -> bool) (rs : list row) :
  PdStr.select_rows (PdStr.mask_or (map f rs) (map g rs)) rs =
  List.filter (fun r => f r || g r) rs.
Proof.
  unfold PdStr.mask_or. induction rs as [|r rs IH]; simpl; [reflexivity|].
  rewrite IH. reflexivity.
Qed.

(** What line 123 computes, whenever it computes something: the rows that
    pass a test, in their order. *)
Lemma filtered_df_is_filter beyond d text fv :
  filtered_df beyond d text = inr fv ->
  columns fv = columns d /\ dtypes fv = dtypes d /\
  exists keep : row -> bool, rows fv = List.filter keep (rows d).
Proof.
  unfold filtered_df, PdStr.contains.
  destruct (getitem d "Gender") as [e|[jg sg|]] eqn:Eg; try discriminate.
  destruct (sdtype sg); try discriminate.
  destruct (Re.compile beyond text) as [e|re]; try discriminate.
  destruct (getitem d "Occupation") as [e|[jo so|]] eqn:Eo; try discriminate.
  destruct (sdtype so); try discriminate.
  intros [= <-]. split; [reflexivity|]. split; [reflexivity|].
  unfold getitem in Eg, Eo.
  destruct (get_loc d "Gender") as [|jg' [|]]; try discriminate. injection Eg as <- <-.
  destruct (get_loc d "Occupation") as [|jo' [|]]; try discriminate. injection Eo as <- <-.
  exists (fun r => cell_matches re (cell_at jg' r.2) || cell_matches re (cell_at jo' r.2)).
  unfold PdStr.getitem_mask, column. cbn [rows svalues].
  rewrite !map_map. apply (select_rows_filter
    (fun r => cell_matches re (cell_at jg' r.2)) (fun r => cell_matches re (cell_at jo' r.2))).
Qed.

Section TextColumns.
Variable re_beyond : string -> exn + (string -> bool).
Variable ds : DataFrame.
Hypothesis Hinv : dataset_invariant ds.
Hypothesis Hgender : text_column ds "Gender".
Hypothesis Hoccupation : text_column ds "Occupation".

Lemma gender_required : In "Gender" required_columns.
Proof. unfold required_columns. simpl. tauto. Qed.

Lemma occupation_required : In "Occupation" required_columns.
Proof. unfold required_columns. simpl. tauto. Qed.

(** With text in both columns, the filter is computed for every pattern
    that compiles, and keeps the rows one of whose two texts the pattern
    is found in. *)
Lemma filtered_df_text text r :
  Re.compile re_beyond text = inr r ->
  filtered_df re_beyond ds text =
  inr (mkDataFrame (columns ds) (dtypes ds)
         (List.filter (fun row => cell_matches r (value (columns ds) "Gender" row) ||
                                  cell_matches r (value (columns ds) "Occupation" row))
                      (rows ds))).
Proof.
  intros Hr. unfold filtered_df, PdStr.contains.
  destruct (getitem_one ds Hinv "Gender") as (jg & Hjg & ->);
    [apply (inv_required _ Hinv), gender_required|].
  destruct (getitem_one ds Hinv "Occupation") as (jo & Hjo & ->);
    [apply (inv_required _ Hinv), occupation_required|].
  rewrite (column_sdtype ds "Gender" jg Object Hjg Hgender).
  rewrite (column_sdtype ds "Occupation" jo Object Hjo Hoccupation).
  rewrite Hr. unfold PdStr.getitem_mask. f_equal. f_equal.
  unfold column. cbn [svalues]. rewrite !map_map.
  rewrite (select_rows_filter (fun x => cell_matches r (cell_at jg x.2))
                              (fun x => cell_matches r (cell_at jo x.2))).
  apply List.filter_ext. intros x. unfold value. now rewrite Hjg, Hjo.
Qed.

(** For a literal pattern the test on a cell is the membership condition. *)
Lemma cell_matches_literal text c :
  cell_matches (Re.Atoms (map Re.Lit (list_ascii_of_string text))) c = true <->
  text_contains text c.
Proof.
  unfold text_contains. destruct c as [x|t]; cbn [cell_matches].
  - split; [discriminate | intros (t & H & _); discriminate].
  - rewrite search_literal. split.
    + intros H. now exists t.
    + intros (t' & [= <-] & H). exact H.
Qed.

End TextColumns.
End SearchFacts.

(** ** The export: UTF-8 and CSV text *)

Module Utf8Facts.
Import Utf8.





End Utf8Facts.

Module CsvFacts.
Import Py Pd Csv Spec.

Lemma append_assoc (a b c : string) : (a ++ b) ++ c = a ++ (b ++ c).
Proof. induction a as [|x a IH]; simpl; [reflexivity | now rewrite IH]. Qed.

Lemma append_empty_r (a : string) : a ++ "" = a.
Proof. induction a as [|x a IH]; simpl; [reflexivity | now rewrite IH]. Qed.


















End CsvFacts.

(** ** Numbers: rounding and sums *)

Module NumberFacts.
Import Py Pd Spec.

Lemma round_half_even_nearest M k :
  (0 < k)%Z -> nearest_integer M k (round_half_even M k).
Proof.
  intros Hk. unfold nearest_integer, round_half_even.
  assert (HP : (0 < 2 ^ k)%Z) by (apply Z.pow_pos_nonneg; lia).
  set (P := (2 ^ k)%Z) in *.
  pose proof (Z.div_mod M P ltac:(lia)) as Hdm.
  pose proof (Z.mod_pos_bound M P HP) as Hr.
  set (q := (M / P)%Z) in *. set (r := (M mod P)%Z) in *.
  assert (Hq : (M - q * P = r)%Z) by lia.
  assert (Hq1 : (M - (q + 1) * P = r - P)%Z) by lia.
  destruct (2 * r <? P)%Z eqn:E1; [apply Z.ltb_lt in E1 | apply Z.ltb_ge in E1].
  - rewrite Hq. split; lia.
  - destruct (P <? 2 * r)%Z eqn:E2; [apply Z.ltb_lt in E2 | apply Z.ltb_ge in E2].
    + rewrite Hq1. split; lia.
    + destruct (Z.even q) eqn:E3.
      * rewrite Hq. split; [lia | auto].
      * rewrite Hq1. split; [lia|]. intros _.
        rewrite Z.even_add, E3. reflexivity.
Qed.

(** There is one nearest whole number, ties to even. *)
Lemma nearest_integer_unique M k n1 n2 :
  (0 < k)%Z -> nearest_integer M k n1 -> nearest_integer M k n2 -> n1 = n2.
Proof.
  intros Hk [H1 E1] [H2 E2].
  assert (HP : (0 < 2 ^ k)%Z) by (apply Z.pow_pos_nonneg; lia).
  set (P := (2 ^ k)%Z) in *.
  assert (Hd : (Z.abs (n1 - n2) * P <= P)%Z).
  { assert ((Z.abs (n1 - n2) * P)%Z = Z.abs ((M - n2 * P) - (M - n1 * P))).
    { rewrite <- (Z.abs_eq P) at 1 by lia. rewrite <- Z.abs_mul. f_equal. ring. }
    lia. }
  assert (Hle : (Z.abs (n1 - n2) <= 1)%Z) by nia.
  destruct (Z.eq_dec n1 n2) as [|Hne]; [assumption|exfalso].
  assert (Hcase : n1 = (n2 + 1)%Z \/ n2 = (n1 + 1)%Z) by lia.
  assert (T1 : (2 * Z.abs (M - n1 * P))%Z = P) by (destruct Hcase; subst; lia).
  assert (T2 : (2 * Z.abs (M - n2 * P))%Z = P) by (destruct Hcase; subst; lia).
  specialize (E1 T1). specialize (E2 T2).
  destruct Hcase as [H | H].
  - rewrite H, Z.even_add, E2 in E1. discriminate.
  - rewrite H, Z.even_add, E1 in E2. discriminate.
Qed.

(** [rint] gives the nearest whole number. *)
Lemma rint_nearest x : nearest_whole x (rint x).
Proof.
  unfold nearest_whole, rint. destruct (Prim2SF x) as [s|s| |s m e]; try reflexivity.
  destruct (e <? 0)%Z eqn:E; [|reflexivity].
  apply Z.ltb_lt in E. eexists. split; [apply round_half_even_nearest; lia | reflexivity].
Qed.

Lemma nearest_whole_unique x r1 r2 : nearest_whole x r1 -> nearest_whole x r2 -> r1 = r2.
Proof.
  unfold nearest_whole. destruct (Prim2SF x) as [s|s| |s m e]; try congruence.
  destruct (e <? 0)%Z eqn:E; [|congruence].
  apply Z.ltb_lt in E. intros (n1 & H1 & ->) (n2 & H2 & ->).
  assert (Hk : (0 < - e)%Z) by lia.
  now rewrite (nearest_integer_unique _ _ n1 n2 Hk H1 H2).
Qed.

(** [round(x, 2)] is [x] rounded to 2 decimal places, and nothing else is. *)
Lemma round2_rounded x : rounded_to_2_decimals x (round2 x).
Proof. exists (rint (x * of_Z 100)). split; [apply rint_nearest | reflexivity]. Qed.

Lemma rounded_to_2_decimals_unique x v1 v2 :
  rounded_to_2_decimals x v1 -> rounded_to_2_decimals x v2 -> v1 = v2.
Proof.
  intros (r1 & H1 & ->) (r2 & H2 & ->). now rewrite (nearest_whole_unique _ _ _ H1 H2).
Qed.

(** Adding to -0.0 changes nothing. *)
Lemma neg_zero_add x : (neg_zero + x)%float = x.
Proof.
  apply Prim2SF_inj. rewrite add_spec.
  change (Prim2SF neg_zero) with (S754_zero true).
  now destruct (Prim2SF x) as [[|]|[|]| |s m e].
Qed.

(** numpy's sum of fewer than 8 numbers: one after the other. *)
Lemma np_sum_short x xs :
  (length xs < 7)%nat -> np_sum (x :: xs) = fold_left PrimFloat.add xs x.
Proof.
  intros H. unfold np_sum. rewrite neg_zero_add.
  destruct (length (x :: xs)) as [|n] eqn:E; [discriminate|].
  cbn [pairwise_sum]. rewrite E.
  assert (Hn : (S n <? 8)%nat = true) by (apply Nat.ltb_lt; simpl in E; lia).
  rewrite Hn. unfold add_all. cbn [fold_left]. now rewrite neg_zero_add.
Qed.

Lemma np_sum_five a b c d e : np_sum [a; b; c; d; e] = sum_of_five a b c d e.
Proof. rewrite np_sum_short by (simpl; lia). reflexivity. Qed.

(** The depth given to [pairwise_sum] is never used up: any depth from
    the length of the list on gives the same sum. *)
Lemma pairwise_sum_depth d1 : forall d2 xs,
  (length xs <= d1)%nat -> (length xs <= d2)%nat -> pairwise_sum d1 xs = pairwise_sum d2 xs.
Proof.
  induction d1 as [|d1 IH]; intros d2 xs H1 H2.
  - destruct xs; [|simpl in H1; lia]. now destruct d2.
  - destruct d2 as [|d2].
    + destruct xs; [reflexivity | simpl in H2; lia].
    + cbn [pairwise_sum].
      destruct (length xs <? 8)%nat eqn:E8; [reflexivity|].
      destruct (length xs <=? 128)%nat eqn:E128; [reflexivity|].
      apply Nat.ltb_ge in E8. apply Nat.leb_gt in E128.
      set (n := length xs) in *. set (n2 := (n / 2 - (n / 2) mod 8)%nat).
      assert (Hn2 : (n2 <= n / 2)%nat) by (unfold n2; lia).
      assert (Hpos : (0 < n2)%nat).
      { unfold n2. pose proof (Nat.mod_upper_bound (n / 2) 8 ltac:(lia)).
        assert (64 <= n / 2)%nat by (apply Nat.div_le_lower_bound; lia). lia. }
      assert (Hhalf : (n / 2 <= d1)%nat /\ (n / 2 <= d2)%nat).
      { assert (n / 2 < n)%nat by (apply Nat.div_lt; lia). lia. }
      f_equal.
      * apply IH; rewrite length_firstn; fold n; lia.
      * apply IH; rewrite length_skipn; fold n; lia.
Qed.

End NumberFacts.

(** ** The claims *)

Module Claims.
Import Py Pd St Layout Spec Facts LoaderFacts LoadFacts DatasetFacts MetricsFacts SearchFacts.
Import NumberFacts.

#[local] Set Default Proof Using "Type".

Lemma list_filter_sublist {A} (f : A -> bool) (l : list A) : sublist (List.filter f l) l.
Proof.
  induction l as [|a l IH]; simpl; [constructor|].
  destruct (f a); now constructor.
Qed.

Section Loader.
Variable parse_number : string -> option float.




End Loader.

Lemma required_columns_NoDup : NoDup required_columns.
Proof. apply distinctb_NoDup. reflexivity. Qed.

Lemma missing_cols_spec raw c :
  In c (missing_cols (strip_columns raw)) <-> In c required_columns /\ ~ In c (headers raw).
Proof.
  unfold missing_cols. rewrite filter_In, negb_true_iff, contains_false. reflexivity.
Qed.

Section Script.
Variable parse_number : string -> option float.
Variable corr : DataFrame -> exn + list (list float).
Variable format_number : float -> string.
Variable re_beyond : string -> exn + (string -> bool).

Local Abbreviation script := (script parse_number corr format_number re_beyond).
Local Abbreviation to_csv := (Csv.to_csv format_number).

(** C2.  When the uploaded table, its column names trimmed, lacks one or
    more of the nine required columns, the Loader renders one error whose
    text lists exactly the lacking names (each once, in the order of the
    required list), leaves [df] at "no dataset", and the chosen page shows
    its heading and a warning and nothing else: no metric, chart, estimate,
    table or download. *)
Theorem C2_missing_columns_rejected (inp : Inputs) (raw : DataFrame) :
  uploaded_file inp = Some raw ->
  (exists c, In c required_columns /\ ~ In c (headers raw)) ->
  exists missing,
    (forall c, In c missing <-> In c required_columns /\ ~ In c (headers raw)) /\
    NoDup missing /\
    sublist missing required_columns /\
    load parse_number raw =
      Done tt (mkSession None
                 [SidebarError ("❌ Missing columns in dataset: " ++ repr_list missing)]) /\
    script inp =
      Done tt (mkSession None
                 (sidebar ++
                  [SidebarError ("❌ Missing columns in dataset: " ++ repr_list missing)] ++
                  no_dataset_view (page inp))).
Proof.
  intros Hup (c0 & Hc0). exists (missing_cols (strip_columns raw)).
  assert (Hne : missing_cols (strip_columns raw) <> []).
  { intros E. apply missing_cols_spec in Hc0. rewrite E in Hc0. destruct Hc0. }
  split; [intros c; apply missing_cols_spec|].
  split; [apply NoDup_ListNoDup, List.NoDup_filter, NoDup_ListNoDup, required_columns_NoDup|].
  split; [apply list_filter_sublist|].
  split; [now apply load_missing|].
  unfold Layout.script, main. rewrite Hup.
  cbv beta iota delta [bind render set_df df rendered].
  rewrite (load_data_missing parse_number raw _ Hne).
  destruct (page inp); reflexivity.
Qed.

(** The page of the Scenario Estimator, given a validated Dataset. *)
Lemma predictions_renders ds inp out :
  dataset_invariant ds ->
  predictions inp (mkSession (Some ds) out) =
  Done tt (mkSession (Some ds)
             (out ++
              [Title "🤖 Anxiety Severity Prediction";
               Write "📥 Enter new case details to predict anxiety severity.";
               Metric "🧠 Predicted Anxiety Severity (1-10)"
                 (round2 (arithmetic_mean
                            (scenario_terms (stress_slider inp) (heart_rate_input inp)
                               (breathing_rate_input inp) (caffeine_input inp)
                               (alcohol_input inp))))])).
Proof.
  intros Hinv. unfold predictions.
  destruct (getitem_one ds Hinv "Gender") as (jg & _ & Hg);
    [apply (inv_required _ Hinv), gender_required|].
  destruct (getitem_one ds Hinv "Occupation") as (jo & _ & Ho);
    [apply (inv_required _ Hinv), occupation_required|].
  cbv beta iota delta [bind render get_df call ret df rendered].
  rewrite Hg. cbv beta iota delta [PdStr.unique]. rewrite Ho.
  cbv beta iota. rewrite <- !app_assoc. reflexivity.
Qed.

(** C3.  Given a validated Dataset, the Scenario Estimator's page shows one
    number: the arithmetic mean of five terms (stress level, heart rate
    over 20, breathing rate over 5, caffeine over 100, alcohol; added one
    after the other and divided by 5) rounded to 2 decimal places, that
    is, the whole number nearest to the hundredths of the mean (ties to
    even), over 100.  [C3_score_of_the_defaults] evaluates it at (5, 80,
    20, 100, 2), where the score is 16/5, the binary64 number written 3.2,
    and at a caffeine intake of 133, where the mean 3.266 is shown as
    3.27. *)
Theorem C3_scenario_score (ds : DataFrame) (inp : Inputs) (out : list element) :
  validated parse_number ds ->
  exists shown,
    arithmetic_mean (scenario_terms (stress_slider inp) (heart_rate_input inp)
                       (breathing_rate_input inp) (caffeine_input inp) (alcohol_input inp)) =
      (sum_of_five (of_Z (stress_slider inp))
                   (of_Z (heart_rate_input inp) / of_Z 20)
                   (of_Z (breathing_rate_input inp) / of_Z 5)
                   (of_Z (caffeine_input inp) / of_Z 100)
                   (of_Z (alcohol_input inp)) / of_Z 5)%float /\
    rounded_to_2_decimals
      (arithmetic_mean (scenario_terms (stress_slider inp) (heart_rate_input inp)
                          (breathing_rate_input inp) (caffeine_input inp) (alcohol_input inp)))
      shown /\
    predictions inp (mkSession (Some ds) out) =
    Done tt (mkSession (Some ds)
               (out ++
                [Title "🤖 Anxiety Severity Prediction";
                 Write "📥 Enter new case details to predict anxiety severity.";
                 Metric "🧠 Predicted Anxiety Severity (1-10)" shown])).
Proof.
  intros Hv. eexists. split; [|split; [apply round2_rounded|]].
  - unfold arithmetic_mean, scenario_terms. now rewrite np_sum_five.
  - apply predictions_renders. eapply validated_invariant; eauto.
Qed.



(** C9.  Given a validated Dataset without rows, the Metrics View raises
    nothing and has no guard: each of the five columns is found, its mean
    is NaN, rounding NaN to 2 decimals gives NaN, and the page shows five
    metrics whose value is NaN. *)
Theorem C9_empty_dataset_metrics_are_nan (ds : DataFrame) (out : list element) :
  validated parse_number ds -> rows ds = [] ->
  (forall c, In c metric_columns ->
     exists j s, getitem ds c = inr (OneColumn j s) /\ mean s = inr nan) /\
  round2 nan = nan /\
  home (mkSession (Some ds) out) =
  Done tt (mkSession (Some ds)
             (out ++
              [Title "🏠 Anxiety Attack Data Analysis";
               Write "Analyze and predict anxiety attack severity using dataset insights.";
               Subheader "📊 Overview Metrics";
               Metric "📉 Avg. Stress Level" nan;
               Metric "❤️ Avg. Heart Rate (bpm)" nan;
               Metric "🌬 Avg. Breathing Rate" nan;
               Metric "☕ Avg. Caffeine Intake (mg)" nan;
               Metric "🍷 Avg. Alcohol Intake (drinks/week)" nan])).
Proof.
  intros Hv Hrows. pose proof (validated_invariant parse_number ds Hv) as Hinv.
  split; [|split; [reflexivity|]].
  - intros c Hc.
    pose proof (metric_numeric c Hc) as Hn.
    destruct (getitem_one ds Hinv c) as (j & Hj & Hg);
      [now apply (inv_required _ Hinv), numeric_required|].
    exists j, (column ds j). split; [exact Hg|].
    pose proof (column_svalues ds c j Hj) as Hvs.
    pose proof (column_sdtype ds c j Numeric Hj (inv_numeric _ Hinv c Hn)) as Hd.
    destruct (column ds j) as [dt vs]. cbn [svalues sdtype] in Hvs, Hd. subst dt vs.
    rewrite (mean_of_numbers _ (numeric_values ds Hinv c Hn)).
    unfold column_values. now rewrite Hrows.
  - unfold home. cbv beta iota delta [bind render get_df df rendered].
    rewrite !(avg_metric_numeric ds Hinv)
      by (apply contains_In; reflexivity).
    cbn [df rendered]. rewrite Hrows.
    change (round2 nan) with nan.
    rewrite <- !app_assoc. reflexivity.
Qed.

(** The Report View, given the Filtered View line 123 computed. *)
Lemma reports_renders ds inp out fv :
  filtered_df re_beyond ds (search_text inp) = inr fv ->
  reports format_number re_beyond inp (mkSession (Some ds) out) =
  Done tt (mkSession (Some ds)
             (out ++
              [Title "📄 Reports & Insights";
               Write "📋 Filtered Dataset Preview:";
               Dataframe fv;
               DownloadButton "⬇ Download CSV Report" (Utf8.encode (to_csv ds))
                 "Anxiety_Report.csv" "text/csv"])).
Proof.
  intros Hf. unfold reports.
  cbv beta iota delta [bind render get_df call ret df rendered].
  rewrite Hf. cbv beta iota. rewrite <- !app_assoc. reflexivity.
Qed.

(** The Report View when line 123 raises: the run ends there. *)
Lemma reports_raises ds inp out e :
  filtered_df re_beyond ds (search_text inp) = inl e ->
  reports format_number re_beyond inp (mkSession (Some ds) out) =
  Raised e (mkSession (Some ds) (out ++ [Title "📄 Reports & Insights"])).
Proof.
  intros Hf. unfold reports.
  cbv beta iota delta [bind render get_df call raise df rendered].
  rewrite Hf. reflexivity.
Qed.

(** C5, as amended.  Given a validated Dataset whose Gender and Occupation
    columns hold text, and a search string without regular-expression
    metacharacters, the Report View shows a Filtered View with the
    Dataset's columns and exactly the rows whose Gender or Occupation
    contains the search string, case ignored.  With the empty search
    string these are all rows; with "male" in any case, every row whose
    Gender is "Male" or "Female" is among them. *)
Theorem C5_filter_literal_search (ds : DataFrame) (inp : Inputs) (out : list element) :
  validated parse_number ds ->
  text_column ds "Gender" -> text_column ds "Occupation" ->
  is_literal (search_text inp) = true ->
  exists fv,
    filtered_df re_beyond ds (search_text inp) = inr fv /\
    reports format_number re_beyond inp (mkSession (Some ds) out) =
      Done tt (mkSession (Some ds)
                 (out ++
                  [Title "📄 Reports & Insights";
                   Write "📋 Filtered Dataset Preview:";
                   Dataframe fv;
                   DownloadButton "⬇ Download CSV Report" (Utf8.encode (to_csv ds))
                     "Anxiety_Report.csv" "text/csv"])) /\
    columns fv = columns ds /\
    (forall r, In r (rows fv) <->
               In r (rows ds) /\ matches (columns ds) (search_text inp) r) /\
    (search_text inp = "" -> rows fv = rows ds) /\
    (lowercase (search_text inp) = "male" ->
     forall r, In r (rows ds) ->
               value (columns ds) "Gender" r = Str "Male" \/
               value (columns ds) "Gender" r = Str "Female" ->
               In r (rows fv)).
Proof.
  intros Hv Hg Ho Hlit. pose proof (validated_invariant parse_number ds Hv) as Hinv.
  pose proof (filtered_df_text re_beyond ds Hinv Hg Ho _ _ (compile_literal re_beyond _ Hlit)) as Hf.
  set (re := Re.Atoms (map Re.Lit (list_ascii_of_string (search_text inp)))) in *.
  assert (Hin : forall r,
             In r (List.filter
                     (fun row => cell_matches re (value (columns ds) "Gender" row) ||
                                 cell_matches re (value (columns ds) "Occupation" row))
                     (rows ds)) <->
             In r (rows ds) /\ matches (columns ds) (search_text inp) r).
  { intros r. rewrite filter_In, orb_true_iff. unfold matches, re.
    now rewrite !cell_matches_literal. }
  eexists. split; [exact Hf|]. split; [now apply reports_renders|].
  split; [reflexivity|]. cbn [rows]. split; [exact Hin|]. split.
  - intros Hempty. apply filter_all. intros r Hr.
    destruct (proj1 (List.Forall_forall _ _)
                (text_values ds Hinv "Gender" gender_required Hg)
                (value (columns ds) "Gender" r)) as (t & Ht).
    { unfold column_values. now apply in_map. }
    rewrite Ht. unfold re. rewrite Hempty. destruct t; reflexivity.
  - intros Hmale r Hr Hgender. apply Hin. split; [assumption|]. left.
    unfold text_contains, contains_ci. rewrite Hmale.
    destruct Hgender as [-> | ->].
    + exists "Male". split; [reflexivity|]. now exists "", "".
    + exists "Female". split; [reflexivity|]. now exists "fe", "".
Qed.

(** What line 123 computes on a validated Dataset, whenever it computes
    something: the search string has compiled, and the rows are those one
    of whose two cells the pattern is found in. *)
Lemma filtered_df_rows (ds : DataFrame) (text : string) (fv : DataFrame) :
  dataset_invariant ds ->
  filtered_df re_beyond ds text = inr fv ->
  exists re,
    Re.compile re_beyond text = inr re /\
    fv = mkDataFrame (columns ds) (dtypes ds)
           (List.filter (fun r => cell_matches re (value (columns ds) "Gender" r) ||
                                  cell_matches re (value (columns ds) "Occupation" r))
                        (rows ds)).
Proof.
  intros Hinv. unfold filtered_df, PdStr.contains.
  destruct (getitem_one ds Hinv "Gender") as (jg & Hjg & ->);
    [apply (inv_required _ Hinv), gender_required|].
  destruct (getitem_one ds Hinv "Occupation") as (jo & Hjo & ->);
    [apply (inv_required _ Hinv), occupation_required|].
  destruct (sdtype (column ds jg)); [discriminate|].
  destruct (Re.compile re_beyond text) as [e|re]; [discriminate|].
  destruct (sdtype (column ds jo)); [discriminate|].
  intros [= <-]. exists re. split; [reflexivity|].
  unfold PdStr.getitem_mask. f_equal.
  unfold column. cbn [svalues]. rewrite !map_map.
  rewrite (select_rows_filter (fun x => cell_matches re (cell_at jg x.2))
                              (fun x => cell_matches re (cell_at jo x.2))).
  apply List.filter_ext. intros x. unfold value. now rewrite Hjg, Hjo.
Qed.

(** C10.  Given a validated Dataset: whenever line 123 computes a Filtered
    View, the search string has compiled to a pattern, the view has the
    Dataset's columns, and its rows are exactly the Dataset's rows in which
    the pattern is found in the Gender or in the Occupation, each once and
    in the Dataset's order (the Dataset's rows filtered by this test); the
    run of the Report View, finished or interrupted, leaves [df] as it
    was; and a Filtered View is computed and shown whenever the two
    searched columns hold text and the search string compiles. *)
Theorem C10_filtered_view_is_subsequence (ds : DataFrame) (inp : Inputs) (out : list element) :
  validated parse_number ds ->
  (forall fv, filtered_df re_beyond ds (search_text inp) = inr fv ->
     exists re,
       Re.compile re_beyond (search_text inp) = inr re /\
       columns fv = columns ds /\
       rows fv =
         List.filter (fun r => cell_matches re (value (columns ds) "Gender" r) ||
                               cell_matches re (value (columns ds) "Occupation" r))
                     (rows ds) /\
       sublist (rows fv) (rows ds)) /\
  df (final (reports format_number re_beyond inp (mkSession (Some ds) out))) = Some ds /\
  (text_column ds "Gender" -> text_column ds "Occupation" ->
   forall re, Re.compile re_beyond (search_text inp) = inr re ->
     exists fv,
       filtered_df re_beyond ds (search_text inp) = inr fv /\
       reports format_number re_beyond inp (mkSession (Some ds) out) =
         Done tt (mkSession (Some ds)
                    (out ++
                     [Title "📄 Reports & Insights";
                      Write "📋 Filtered Dataset Preview:";
                      Dataframe fv;
                      DownloadButton "⬇ Download CSV Report" (Utf8.encode (to_csv ds))
                        "Anxiety_Report.csv" "text/csv"]))).
Proof.
  intros Hv. pose proof (validated_invariant parse_number ds Hv) as Hinv.
  split; [|split].
  - intros fv Hf. destruct (filtered_df_rows _ _ _ Hinv Hf) as (re & Hre & ->).
    exists re. split; [exact Hre|]. split; [reflexivity|]. split; [reflexivity|].
    apply list_filter_sublist.
  - destruct (filtered_df re_beyond ds (search_text inp)) as [e|fv] eqn:Hf.
    + now rewrite (reports_raises _ _ _ _ Hf).
    + now rewrite (reports_renders _ _ _ _ Hf).
  - intros Hg Ho re Hre. eexists. split.
    + exact (filtered_df_text re_beyond ds Hinv Hg Ho _ _ Hre).
    + apply reports_renders. exact (filtered_df_text re_beyond ds Hinv Hg Ho _ _ Hre).
Qed.



End Script.

(** C4.  Two submissions of the form that agree on stress level, heart
    rate, breathing rate, caffeine and alcohol get the same score, rounded
    or not, whatever their gender, occupation and sleep hours. *)
Theorem C4_score_ignores_sleep_gender_occupation (f1 f2 : ScenarioInput) :
  stress_level f1 = stress_level f2 ->
  heart_rate f1 = heart_rate f2 ->
  breathing_rate f1 = breathing_rate f2 ->
  caffeine f1 = caffeine f2 ->
  alcohol f1 = alcohol f2 ->
  predicted_severity f1 = predicted_severity f2 /\
  round2 (predicted_severity f1) = round2 (predicted_severity f2).
Proof.
  intros Hs Hh Hb Hc Ha. unfold predicted_severity.
  rewrite Hs, Hh, Hb, Hc, Ha. split; reflexivity.
Qed.

(** The same on the page: runs of the page that differ in the two choices
    and in the sleep slider only render the same elements. *)
Lemma predictions_ignores_choices (i1 i2 : Inputs) (s : session) :
  stress_slider i1 = stress_slider i2 ->
  heart_rate_input i1 = heart_rate_input i2 ->
  breathing_rate_input i1 = breathing_rate_input i2 ->
  caffeine_input i1 = caffeine_input i2 ->
  alcohol_input i1 = alcohol_input i2 ->
  predictions i1 s = predictions i2 s.
Proof.
  intros Hs Hh Hb Hc Ha. unfold predictions, predicted_severity. cbn.
  rewrite Hs, Hh, Hb, Hc, Ha. reflexivity.
Qed.

(** *** The claims at concrete tables *)

Import Examples.

Lemma example_validated parse raw :
  well_formed raw -> distinctb (headers raw) = true ->
  missing_cols (strip_columns raw) = [] ->
  validated parse (loaded parse raw).
Proof.
  intros Hwf Hd Hm. exists raw. split; [assumption|].
  split; [now apply distinctb_NoDup|].
  apply load_ok; [now apply has_required_iff | now apply distinctb_NoDup].
Qed.

Ltac well_formed_table :=
  split; [reflexivity | repeat (apply List.Forall_cons; [unfold row_ok; repeat constructor|])];
  apply List.Forall_nil.

Lemma survey_well_formed : well_formed survey.
Proof. well_formed_table. Qed.

Lemma one_row_well_formed : well_formed one_row.
Proof. well_formed_table. Qed.

Lemma no_complete_row_well_formed : well_formed no_complete_row.
Proof. well_formed_table. Qed.

Lemma male_female_well_formed : well_formed male_female.
Proof. well_formed_table. Qed.

Lemma coded_gender_well_formed : well_formed coded_gender.
Proof. well_formed_table. Qed.


(** C1 as the specification states it fails when two columns have the
    same name once trimmed.  The upload [twice_sleep] has the nine
    required columns and its one row misses no value, but the Loader ends
    in the loop of lines 38-39 with TypeError and leaves no Dataset: the
    row does not survive. *)
Lemma C1_repeated_name_is_not_loaded :
  has_required twice_sleep /\
  List.Forall (fun r => complete (headers twice_sleep) r = true) (rows twice_sleep) /\
  exists d, load parse_digits twice_sleep = Raised TypeError (mkSession (Some d) []).
Proof.
  split; [apply has_required_iff; reflexivity|].
  split; [repeat constructor|].
  eexists. vm_compute. reflexivity.
Qed.

Lemma one_row_validated : validated parse_digits (loaded parse_digits one_row).
Proof. apply example_validated; [apply one_row_well_formed | reflexivity | reflexivity]. Qed.

Lemma no_complete_row_validated : validated parse_digits (loaded parse_digits no_complete_row).
Proof. apply example_validated; [apply no_complete_row_well_formed | reflexivity | reflexivity]. Qed.

Lemma male_female_validated : validated parse_digits (loaded parse_digits male_female).
Proof. apply example_validated; [apply male_female_well_formed | reflexivity | reflexivity]. Qed.

Lemma coded_gender_validated : validated parse_digits (loaded parse_digits coded_gender).
Proof. apply example_validated; [apply coded_gender_well_formed | reflexivity | reflexivity]. Qed.

(** The upload [two_missing] on the Home page, evaluated: one error
    naming Gender and Sleep Hours, no dataset, and the page's warning. *)
Example two_missing_rendered :
  script parse_digits no_corr format_digits no_beyond (defaults Home (Some two_missing)) =
  Done tt (mkSession None
             [SidebarTitle "📌 Click Below"; SidebarTitle "📂 Upload Data";
              SidebarError "❌ Missing columns in dataset: ['Gender', 'Sleep Hours']";
              Title "🏠 Anxiety Attack Data Analysis";
              Write "Analyze and predict anxiety attack severity using dataset insights.";
              Warning "⚠ Please upload a valid dataset to see insights."]).
Proof. vm_compute. reflexivity. Qed.

(** The same upload through C2: the error names Gender and Sleep Hours. *)
Lemma C2_two_missing_columns :
  uploaded_file (defaults Home (Some two_missing)) = Some two_missing /\
  (exists c, In c required_columns /\ ~ In c (headers two_missing)) /\
  exists missing,
    In "Gender" missing /\ In "Sleep Hours" missing /\ ~ In "Occupation" missing /\
    script parse_digits no_corr format_digits no_beyond (defaults Home (Some two_missing)) =
    Done tt (mkSession None
               (sidebar ++
                [SidebarError ("❌ Missing columns in dataset: " ++ repr_list missing)] ++
                no_dataset_view Home)).
Proof.
  assert (H : exists c, In c required_columns /\ ~ In c (headers two_missing)).
  { exists "Gender". split; [apply gender_required|].
    apply contains_false. reflexivity. }
  split; [reflexivity|]. split; [exact H|].
  destruct (C2_missing_columns_rejected parse_digits no_corr format_digits no_beyond
              (defaults Home (Some two_missing)) two_missing eq_refl H)
    as (missing & Hin & _ & _ & _ & Hs).
  exists missing. split; [|split; [|split; [|exact Hs]]].
  - apply Hin. split; [apply gender_required | apply contains_false; reflexivity].
  - apply Hin. split; [unfold required_columns; simpl; tauto | apply contains_false; reflexivity].
  - intros Ho. apply Hin in Ho as [_ Ho]. apply Ho. apply contains_In. reflexivity.
Defined.

(** The form as Streamlit first shows it, (5, 80, 20, 100, 2): the score
    is 16/5, the binary64 number nearest to 3.2.  With a caffeine intake of
    133 the mean is 3.266 and the score shown is 3.27. *)
Lemma C3_score_of_the_defaults :
  validated parse_digits (loaded parse_digits one_row) /\
  predictions (defaults Predictions (Some one_row))
    (mkSession (Some (loaded parse_digits one_row)) []) =
  Done tt (mkSession (Some (loaded parse_digits one_row))
             [Title "🤖 Anxiety Severity Prediction";
              Write "📥 Enter new case details to predict anxiety severity.";
              Metric "🧠 Predicted Anxiety Severity (1-10)" (of_Z 16 / of_Z 5)%float]) /\
  predictions (mkInputs Predictions (Some one_row) 0 0 5 80 20 133 2 7 "")
    (mkSession (Some (loaded parse_digits one_row)) []) =
  Done tt (mkSession (Some (loaded parse_digits one_row))
             [Title "🤖 Anxiety Severity Prediction";
              Write "📥 Enter new case details to predict anxiety severity.";
              Metric "🧠 Predicted Anxiety Severity (1-10)" (of_Z 327 / of_Z 100)%float]).
Proof.
  split; [exact one_row_validated|]. split.
  - destruct (C3_scenario_score parse_digits (loaded parse_digits one_row)
                (defaults Predictions (Some one_row)) [] one_row_validated)
      as (shown & _ & Hr & Hp).
    rewrite (rounded_to_2_decimals_unique _ _ _ Hr (round2_rounded _)) in Hp.
    rewrite Hp. vm_compute. reflexivity.
  - destruct (C3_scenario_score parse_digits (loaded parse_digits one_row)
                (mkInputs Predictions (Some one_row) 0 0 5 80 20 133 2 7 "") [] one_row_validated)
      as (shown & _ & Hr & Hp).
    rewrite (rounded_to_2_decimals_unique _ _ _ Hr (round2_rounded _)) in Hp.
    rewrite Hp. vm_compute. reflexivity.
Defined.

(** Two submissions that differ in gender, occupation and sleep hours. *)
Lemma C4_two_submissions :
  round2 (predicted_severity
            (mkScenarioInput (Some (Str "Male")) (Some (Str "Nurse")) 5 80 20 100 2 7)) =
  round2 (predicted_severity
            (mkScenarioInput (Some (Str "Female")) None 5 80 20 100 2 0)).
Proof.
  exact (proj2 (C4_score_ignores_sleep_gender_occupation
                  (mkScenarioInput (Some (Str "Male")) (Some (Str "Nurse")) 5 80 20 100 2 7)
                  (mkScenarioInput (Some (Str "Female")) None 5 80 20 100 2 0)
                  eq_refl eq_refl eq_refl eq_refl eq_refl)).
Defined.

(** Searching "MALE" in [male_female] keeps both rows. *)
Lemma C5_male_in_capitals :
  validated parse_digits (loaded parse_digits male_female) /\
  text_column (loaded parse_digits male_female) "Gender" /\
  text_column (loaded parse_digits male_female) "Occupation" /\
  is_literal "MALE" = true /\
  exists fv, filtered_df no_beyond (loaded parse_digits male_female) "MALE" = inr fv /\
             map fst (rows fv) = [0; 1]%nat.
Proof.
  split; [exact male_female_validated|].
  split; [reflexivity|]. split; [reflexivity|]. split; [reflexivity|].
  destruct (C5_filter_literal_search parse_digits format_digits no_beyond
              (loaded parse_digits male_female) (searching "MALE" male_female) []
              male_female_validated eq_refl eq_refl eq_refl)
    as (fv & Hf & _).
  exists fv. split; [exact Hf|].
  vm_compute in Hf. injection Hf as <-. reflexivity.
Defined.

(** C5 as the specification states it fails.  In the one-row Dataset the
    search string "." keeps the row, although neither "Male" nor "X"
    contains a dot: the search string is a regular expression.  And on a
    Dataset whose Gender column is numeric no Filtered View is computed at
    all: the search raises AttributeError, also for the empty string. *)
Lemma C5_dot_is_not_a_substring :
  validated parse_digits (loaded parse_digits one_row) /\
  (exists fv r,
     filtered_df no_beyond (loaded parse_digits one_row) "." = inr fv /\
     In r (rows fv) /\
     ~ matches (columns (loaded parse_digits one_row)) "." r) /\
  validated parse_digits (loaded parse_digits coded_gender) /\
  filtered_df no_beyond (loaded parse_digits coded_gender) "" = inl AttributeError.
Proof.
  split; [exact one_row_validated|]. split; [|split; [exact coded_gender_validated|reflexivity]].
  eexists. eexists. split; [vm_compute; reflexivity|]. split; [now left|].
  intros [(t & Ht & Hc) | (t & Ht & Hc)]; vm_compute in Ht; injection Ht as <-;
    apply search_literal in Hc; vm_compute in Hc; discriminate.
Qed.





(** The upload [no_complete_row]: its Dataset has no row, and the Home page
    shows five metrics that are NaN. *)
Lemma C9_no_row_survives :
  validated parse_digits (loaded parse_digits no_complete_row) /\
  rows (loaded parse_digits no_complete_row) = [] /\
  exists shown,
    home (mkSession (Some (loaded parse_digits no_complete_row)) []) =
      Done tt (mkSession (Some (loaded parse_digits no_complete_row)) shown) /\
    List.filter (fun e => match e with Metric _ _ => true | _ => false end) shown =
      [Metric "📉 Avg. Stress Level" nan;
       Metric "❤️ Avg. Heart Rate (bpm)" nan;
       Metric "🌬 Avg. Breathing Rate" nan;
       Metric "☕ Avg. Caffeine Intake (mg)" nan;
       Metric "🍷 Avg. Alcohol Intake (drinks/week)" nan].
Proof.
  split; [exact no_complete_row_validated|]. split; [reflexivity|].
  destruct (C9_empty_dataset_metrics_are_nan parse_digits _ []
              no_complete_row_validated eq_refl) as (_ & _ & Hh).
  eexists. split; [exact Hh|]. reflexivity.
Defined.

(** Searching "fe" in [male_female]: the second row alone, and [df] as
    before. *)
Lemma C10_search_keeps_order :
  validated parse_digits (loaded parse_digits male_female) /\
  exists fv,
    filtered_df no_beyond (loaded parse_digits male_female) "fe" = inr fv /\
    map fst (rows fv) = [1%nat] /\
    sublist (rows fv) (rows (loaded parse_digits male_female)) /\
    df (final (reports format_digits no_beyond (searching "fe" male_female)
                 (mkSession (Some (loaded parse_digits male_female)) []))) =
    Some (loaded parse_digits male_female).
Proof.
  split; [exact male_female_validated|].
  destruct (C10_filtered_view_is_subsequence parse_digits format_digits no_beyond
              (loaded parse_digits male_female) (searching "fe" male_female) []
              male_female_validated) as (Hrows & Hdf & Htot).
  destruct (Htot eq_refl eq_refl _ eq_refl) as (fv & Hf & _).
  destruct (Hrows fv Hf) as (re & Hre & _ & Hr & Hsub).
  exists fv. split; [exact Hf|]. split; [|split; [exact Hsub | exact Hdf]].
  vm_compute in Hre. injection Hre as <-. rewrite Hr. vm_compute. reflexivity.
Defined.

Lemma leading_zero_well_formed : well_formed leading_zero.
Proof. well_formed_table. Qed.




(** The upload [leading_zero] is what [read_csv] makes of its file: the
    occupations are texts, because "Nurse" is no number. *)
Example leading_zero_upload :
  Csv.read_csv parse_digits leading_zero_file = Some leading_zero.
Proof. vm_compute. reflexivity. Qed.




End Claims.

(** ** The names of the columns, trimmed (line 24) *)

Module TrimFacts.
Import Py Pd St Layout Spec Facts CsvFacts.

Lemma rev_onto_app s : forall acc, rev_onto s acc = reverse s ++ acc.
Proof.
  unfold reverse. induction s as [|c s IH]; intros acc; [reflexivity|].
  cbn [rev_onto]. rewrite (IH (String c acc)), (IH (String c "")), append_assoc. reflexivity.
Qed.

Lemma reverse_cons c s : reverse (String c s) = reverse s ++ String c "".
Proof. unfold reverse at 1. cbn [rev_onto]. apply rev_onto_app. Qed.

Lemma reverse_app a b : reverse (a ++ b) = reverse b ++ reverse a.
Proof.
  induction a as [|c a IH]; cbn [append].
  - now rewrite append_empty_r.
  - now rewrite !reverse_cons, IH, append_assoc.
Qed.

Lemma reverse_involutive s : reverse (reverse s) = s.
Proof.
  induction s as [|c s IH]; [reflexivity|].
  now rewrite reverse_cons, reverse_app, IH.
Qed.

Lemma blank_app a b : blank (a ++ b) = blank a && blank b.
Proof.
  unfold blank. induction a as [|c a IH]; [reflexivity|].
  cbn [append list_ascii_of_string forallb]. now rewrite IH, andb_assoc.
Qed.

Lemma blank_reverse s : blank (reverse s) = blank s.
Proof.
  induction s as [|c s IH]; [reflexivity|].
  rewrite reverse_cons, blank_app, IH. unfold blank at 2 3.
  cbn [list_ascii_of_string forallb]. rewrite andb_true_r. apply andb_comm.
Qed.

(** [lstrip] cuts white space off the front, all of it. *)
Lemma lstrip_spec s :
  exists pre, s = pre ++ lstrip s /\ blank pre = true /\ starts_with_space (lstrip s) = false.
Proof.
  induction s as [|c s (pre & Hs & Hb & Hl)].
  - now exists "".
  - cbn [lstrip]. destruct (is_space c) eqn:E.
    + exists (String c pre). cbn [append]. rewrite <- Hs. unfold blank in *.
      cbn [list_ascii_of_string forallb]. now rewrite E, Hb.
    + exists "". cbn [starts_with_space]. auto.
Qed.

Lemma rstrip_spec s :
  exists suf, s = rstrip s ++ suf /\ blank suf = true /\ ends_with_space (rstrip s) = false.
Proof.
  destruct (lstrip_spec (reverse s)) as (pre & Hs & Hb & Hl).
  exists (reverse pre). unfold rstrip, ends_with_space. rewrite reverse_involutive.
  split; [|split; [now rewrite blank_reverse | exact Hl]].
  rewrite <- reverse_app, <- Hs. symmetry. apply reverse_involutive.
Qed.

(** Cutting from the end leaves the front as it is. *)
Lemma starts_with_space_prefix a b :
  starts_with_space (a ++ b) = false -> blank b = true -> starts_with_space a = false.
Proof.
  destruct a as [|c a]; [reflexivity|]. now cbn [append starts_with_space].
Qed.

Lemma strip_spec s : trimmed_of s (strip s).
Proof.
  unfold strip.
  destruct (lstrip_spec s) as (pre & Hs & Hb & Hl).
  destruct (rstrip_spec (lstrip s)) as (suf & Hr & Hb' & He).
  exists pre, suf. split; [now rewrite <- Hr|]. split; [exact Hb|]. split; [exact Hb'|].
  split; [|exact He].
  apply (starts_with_space_prefix _ suf); [now rewrite <- Hr | exact Hb'].
Qed.

Lemma lstrip_fixed s : starts_with_space s = false -> lstrip s = s.
Proof. destruct s as [|c s]; [reflexivity|]. cbn [starts_with_space lstrip]. now intros ->. Qed.

Lemma rstrip_fixed s : ends_with_space s = false -> rstrip s = s.
Proof.
  unfold ends_with_space, rstrip. intros H. rewrite (lstrip_fixed _ H). apply reverse_involutive.
Qed.

(** Trimming a trimmed name changes nothing. *)
Lemma strip_idem s : strip (strip s) = strip s.
Proof.
  destruct (strip_spec s) as (pre & suf & _ & _ & _ & Hl & Hr).
  unfold strip at 1. now rewrite (lstrip_fixed _ Hl), (rstrip_fixed _ Hr).
Qed.

End TrimFacts.

(** ** More on the Dataset Loader (lines 22-40) *)

Module LoaderProperties.
Import Py Pd St Layout Spec Facts LoaderFacts LoadFacts DatasetFacts MetricsFacts TrimFacts.

#[local] Set Default Proof Using "Type".

Lemma map_fixed {A} (f : A -> A) (l : list A) : (forall x, In x l -> f x = x) -> map f l = l.
Proof.
  induction l as [|a l IH]; simpl; intros H; [reflexivity|].
  rewrite (H a) by now left. f_equal. apply IH. intros x Hx. apply H. now right.
Qed.

Section Again.
Variable parse_number : string -> option float.

Lemma coerce_row_on_idem names hs (r : row) :
  coerce_row_on parse_number names hs (coerce_row_on parse_number names hs r) =
  coerce_row_on parse_number names hs r.
Proof.
  unfold coerce_row_on. cbn [fst snd]. f_equal.
  apply list_eq. intros i. rewrite !list_lookup_imap.
  destruct (r.2 !! i) as [x|]; cbn [fmap option_fmap option_map]; [|reflexivity]. f_equal.
  destruct (hs !! i) as [h|]; [|reflexivity].
  destruct (Py.contains names h); [apply coerce_idem | reflexivity].
Qed.

Lemma coerce_dtypes_on_idem names hs dts :
  coerce_dtypes_on names hs (coerce_dtypes_on names hs dts) = coerce_dtypes_on names hs dts.
Proof.
  unfold coerce_dtypes_on. apply list_eq. intros i. rewrite !list_lookup_imap.
  destruct (dts !! i) as [x|]; cbn [fmap option_fmap option_map]; [|reflexivity]. f_equal.
  destruct (hs !! i) as [h|]; [|reflexivity].
  now destruct (Py.contains names h).
Qed.

(** Loading what the Loader left gives it back. *)
Lemma loaded_loaded raw : loaded parse_number (loaded parse_number raw) = loaded parse_number raw.
Proof.
  assert (Hh : headers (loaded parse_number raw) = headers raw).
  { unfold headers at 1. cbn [loaded columns]. unfold headers.
    rewrite map_map. apply map_ext. intros a. apply strip_idem. }
  unfold loaded at 1. rewrite Hh. unfold loaded. cbn [dtypes rows]. f_equal.
  - apply coerce_dtypes_on_idem.
  - set (l := List.filter (complete (headers raw)) (map (coerce_row parse_number (headers raw)) (rows raw))).
    rewrite (map_fixed (coerce_row parse_number (headers raw)) l).
    + apply filter_all. intros r Hr. now apply filter_In in Hr.
    + intros r Hr. apply filter_In in Hr as [Hr _].
      apply in_map_iff in Hr as (r0 & <- & _). apply coerce_row_on_idem.
Qed.

End Again.

(** *** A name that two columns have *)

Lemma get_loc_from_present hs c : forall i,
  In c hs -> (1 <= length (get_loc_from i hs c))%nat.
Proof.
  induction hs as [|h hs IH]; intros i; simpl; [intros []|].
  intros Hc. destruct (String.eqb h c) eqn:E; [simpl; lia|].
  destruct Hc as [-> | Hc]; [rewrite String.eqb_refl in E; discriminate | now apply IH].
Qed.

Lemma get_loc_from_repeated hs c : forall i0 i j,
  (i < j)%nat -> hs !! i = Some c -> hs !! j = Some c ->
  (2 <= length (get_loc_from i0 hs c))%nat.
Proof.
  induction hs as [|h hs IH]; intros i0 i j Hlt Hi Hj; [discriminate|].
  destruct j as [|j]; [lia|]. cbn [lookup list_lookup] in Hj. simpl.
  destruct i as [|i].
  - injection Hi as ->. rewrite String.eqb_refl. simpl.
    pose proof (get_loc_from_present hs c (S i0)) as H.
    apply list_elem_of_lookup_2, list_elem_of_In in Hj. specialize (H Hj). lia.
  - cbn [lookup list_lookup] in Hi.
    assert (H : (2 <= length (get_loc_from (S i0) hs c))%nat) by (apply (IH _ i j); auto; lia).
    destruct (String.eqb h c); simpl; lia.
Qed.

Lemma repeated_header_get_loc raw c :
  repeated_header raw c -> (2 <= length (get_loc (strip_columns raw) c))%nat.
Proof.
  intros (i & j & Hne & Hi & Hj). unfold get_loc, strip_columns. cbn [columns].
  destruct (Nat.lt_total i j) as [H | [H | H]]; [|congruence|].
  - now apply (get_loc_from_repeated _ _ _ i j).
  - now apply (get_loc_from_repeated _ _ _ j i).
Qed.

Section Repeated.
Variable parse_number : string -> option float.

Local Abbreviation convert_column := (convert_column parse_number).

Lemma convert_column_repeated d c out :
  (2 <= length (get_loc d c))%nat ->
  convert_column c (mkSession (Some d) out) = Raised TypeError (mkSession (Some d) out).
Proof.
  intros H. unfold Layout.convert_column, the_df, getitem. run_unfold.
  destruct (get_loc d c) as [|j1 [|j2 js]]; simpl in H; [lia | lia | reflexivity].
Qed.

Lemma convert_column_once d c out :
  In c (columns d) -> length (get_loc d c) = 1%nat ->
  exists d', convert_column c (mkSession (Some d) out) = Done tt (mkSession (Some d') out) /\
             columns d' = columns d.
Proof.
  intros _ H. unfold Layout.convert_column, the_df, getitem. run_unfold.
  destruct (get_loc d c) as [|j1 [|j2 js]]; simpl in H; try lia.
  simpl. eexists. split; reflexivity.
Qed.

(** The loop of lines 38-39 stops with TypeError at the first name that
    two columns have. *)
Lemma convert_until_repeated names : forall d out,
  (forall c, In c names -> In c (columns d)) ->
  (exists c, In c names /\ (2 <= length (get_loc d c))%nat) ->
  exists d', for_each names convert_column (mkSession (Some d) out) =
             Raised TypeError (mkSession (Some d') out).
Proof.
  induction names as [|c0 names IH]; intros d out Hin (c & Hc & Hrep); [destruct Hc|].
  cbn [for_each]. unfold bind at 1.
  pose proof (get_loc_from_present (columns d) c0 0 (Hin c0 (or_introl eq_refl))) as H1.
  fold (get_loc d c0) in H1.
  destruct (Nat.eq_dec (length (get_loc d c0)) 1) as [E | E].
  - destruct (convert_column_once d c0 out (Hin c0 (or_introl eq_refl)) E) as (d1 & -> & Hcols).
    apply IH.
    + intros c' Hc'. rewrite Hcols. apply Hin. now right.
    + exists c. split.
      * destruct Hc as [-> | Hc]; [lia | exact Hc].
      * unfold get_loc in *. now rewrite Hcols.
  - rewrite convert_column_repeated by lia. now exists d.
Qed.

End Repeated.

(** *** A table whose numeric-designated columns were read as numbers *)

Section Clean.
Variable parse_number : string -> option float.

(** The dtype of the column at position [j], when the names are distinct. *)
Lemma dtype_of_lookup d h j :
  NoDup (columns d) -> columns d !! j = Some h -> dtype_of d h = dtypes d !! j.
Proof.
  intros Hnd Hj. unfold dtype_of.
  destruct (index_of (columns d) h) as [k|] eqn:Ek.
  - now rewrite (lookup_distinct _ _ _ _ Hnd (index_of_lookup _ _ _ Ek) Hj).
  - exfalso. apply (index_of_None _ _ Ek).
    now apply list_elem_of_In, list_elem_of_lookup_2 with j.
Qed.

Lemma coerce_row_numeric raw (r : row) :
  well_formed raw -> distinct_headers raw ->
  (forall c, In c numeric_columns -> dtype_of (strip_columns raw) c = Some Numeric) ->
  In r (rows raw) -> coerce_row parse_number (headers raw) r = r.
Proof.
  intros [Hlen Hrows] Hnd Hnum Hr. destruct r as [i cs].
  unfold coerce_row, coerce_row_on. cbn [fst snd]. f_equal.
  apply list_eq. intros k. rewrite list_lookup_imap.
  destruct (cs !! k) as [c|] eqn:Ec; cbn [fmap option_fmap option_map]; [|reflexivity]. f_equal.
  destruct (headers raw !! k) as [h|] eqn:Eh; [|reflexivity].
  destruct (Py.contains numeric_columns h) eqn:En; [|reflexivity].
  apply contains_In in En. specialize (Hnum h En).
  rewrite (dtype_of_lookup (strip_columns raw) h k Hnd Eh) in Hnum. cbn [strip_columns dtypes] in Hnum.
  rewrite List.Forall_forall in Hrows. specialize (Hrows _ Hr). unfold row_ok in Hrows. cbn [snd] in Hrows.
  destruct (Forall2_lookup_l _ _ _ _ _ Hrows Hnum) as (c' & Hc' & Hok).
  rewrite Ec in Hc'. injection Hc' as <-.
  destruct c; [reflexivity | discriminate].
Qed.

Lemma coerce_dtypes_numeric raw :
  distinct_headers raw ->
  (forall c, In c numeric_columns -> dtype_of (strip_columns raw) c = Some Numeric) ->
  coerce_dtypes_on numeric_columns (headers raw) (dtypes raw) = dtypes raw.
Proof.
  intros Hnd Hnum. unfold coerce_dtypes_on.
  apply list_eq. intros k. rewrite list_lookup_imap.
  destruct (dtypes raw !! k) as [dt|] eqn:Ed; cbn [fmap option_fmap option_map]; [|reflexivity]. f_equal.
  destruct (headers raw !! k) as [h|] eqn:Eh; [|reflexivity].
  destruct (Py.contains numeric_columns h) eqn:En; [|reflexivity].
  apply contains_In in En. specialize (Hnum h En).
  rewrite (dtype_of_lookup (strip_columns raw) h k Hnd Eh) in Hnum. cbn [strip_columns dtypes] in Hnum.
  congruence.
Qed.

Lemma loaded_clean raw :
  well_formed raw -> distinct_headers raw ->
  (forall c, In c numeric_columns -> dtype_of (strip_columns raw) c = Some Numeric) ->
  loaded parse_number raw =
  mkDataFrame (headers raw) (dtypes raw) (List.filter (complete (headers raw)) (rows raw)).
Proof.
  intros Hwf Hnd Hnum. unfold loaded. f_equal.
  - now apply coerce_dtypes_numeric.
  - f_equal. apply map_fixed. intros r Hr. now apply coerce_row_numeric.
Qed.

End Clean.
End LoaderProperties.

(** ** The pages only read the Dataset *)

Module PageFacts.
Import Py Pd St Layout Spec Facts.

#[local] Set Default Proof Using "Type".

Lemma keeps_ret {A} (a : A) : keeps_dataset (ret a).
Proof. intros s. split; [reflexivity|]. exists []. cbn. now rewrite app_nil_r. Qed.

Lemma keeps_raise {A} (e : exn) : keeps_dataset (@raise A e).
Proof. intros s. split; [reflexivity|]. exists []. cbn. now rewrite app_nil_r. Qed.

Lemma keeps_call {A} (r : exn + A) : keeps_dataset (call r).
Proof. destruct r; [apply keeps_raise | apply keeps_ret]. Qed.

Lemma keeps_get_df : keeps_dataset get_df.
Proof. intros s. split; [reflexivity|]. exists []. cbn. now rewrite app_nil_r. Qed.

Lemma keeps_render e : keeps_dataset (render e).
Proof. intros s. split; [reflexivity|]. now exists [e]. Qed.

Lemma keeps_bind {A B} (m : run A) (k : A -> run B) :
  keeps_dataset m -> (forall a, keeps_dataset (k a)) -> keeps_dataset (bind m k).
Proof.
  intros Hm Hk s. unfold bind. specialize (Hm s).
  destruct (m s) as [a s'|e s']; cbn [final] in *; [|exact Hm].
  destruct Hm as (Hd & more & Hr). destruct (Hk a s') as (Hd' & more' & Hr').
  split; [congruence|]. exists (more ++ more')%list. now rewrite Hr', Hr, app_assoc.
Qed.

Ltac keeps :=
  repeat first
    [ apply keeps_render | apply keeps_get_df | apply keeps_call | apply keeps_ret
    | apply keeps_raise
    | apply keeps_bind; [|intros]
    | match goal with
      | |- keeps_dataset (match ?x with _ => _ end) => destruct x
      end ].

Lemma keeps_avg_metric d label col : keeps_dataset (avg_metric d label col).
Proof. unfold avg_metric. keeps. Qed.

Lemma keeps_home : keeps_dataset home.
Proof. unfold home. keeps; apply keeps_avg_metric. Qed.

Lemma keeps_data_visualization corr : keeps_dataset (data_visualization corr).
Proof. unfold data_visualization. keeps. Qed.

Lemma keeps_predictions inp : keeps_dataset (predictions inp).
Proof. unfold predictions. keeps. Qed.

Lemma keeps_reports format_number re_beyond inp : keeps_dataset (reports format_number re_beyond inp).
Proof. unfold reports. keeps. Qed.

End PageFacts.

(** ** More on the search of the Report View (line 123) *)

Module SearchProperties.
Import Py Pd St Layout Spec Facts DatasetFacts SearchFacts CsvFacts.

#[local] Set Default Proof Using "Type".

Local Abbreviation literal := (fun t : string => Re.Atoms (map Re.Lit (list_ascii_of_string t))).

(** Two search strings that differ in case only find the same texts. *)
Lemma search_lowercase t1 t2 s :
  lowercase t1 = lowercase t2 -> Re.search (literal t1) s = Re.search (literal t2) s.
Proof.
  intros H. apply eq_true_iff_eq. rewrite !search_literal. unfold contains_ci. now rewrite H.
Qed.

Lemma lowercase_app a b : lowercase (a ++ b) = lowercase a ++ lowercase b.
Proof. induction a as [|c a IH]; cbn [append lowercase]; [reflexivity | now rewrite IH]. Qed.

Lemma contains_ci_trans a b s : contains_ci a b -> contains_ci b s -> contains_ci a s.
Proof.
  intros (p1 & s1 & H1) (p2 & s2 & H2). exists (p2 ++ p1), (s1 ++ s2).
  rewrite H2, H1, !append_assoc. reflexivity.
Qed.

Lemma contains_ci_prefix a b : contains_ci a (a ++ b).
Proof. exists "", (lowercase b). now rewrite lowercase_app. Qed.

(** A text found for the longer search string is found for the shorter. *)
Lemma search_narrows t1 t2 s :
  contains_ci t1 t2 -> Re.search (literal t2) s = true -> Re.search (literal t1) s = true.
Proof. rewrite !search_literal. apply contains_ci_trans. Qed.

Lemma filter_sublist_mono {A} (f g : A -> bool) (l : list A) :
  (forall x, f x = true -> g x = true) -> sublist (List.filter f l) (List.filter g l).
Proof.
  intros H. induction l as [|a l IH]; simpl; [constructor|].
  destruct (f a) eqn:Ef.
  - rewrite (H a Ef). now constructor.
  - destruct (g a); [now constructor | exact IH].
Qed.

(** What line 123 computes for a literal search string, as a filter. *)
Lemma select_rows_masks (f g : cell -> bool) jg jo (rs : list row) :
  PdStr.select_rows
    (PdStr.mask_or (map f (map (fun r : row => cell_at jg r.2) rs))
                   (map g (map (fun r : row => cell_at jo r.2) rs))) rs =
  List.filter (fun r => f (cell_at jg r.2) || g (cell_at jo r.2)) rs.
Proof.
  rewrite !map_map.
  apply (select_rows_filter (fun r => f (cell_at jg r.2)) (fun r => g (cell_at jo r.2))).
Qed.

(** What line 123 computes for a literal search string, case by case. *)
Lemma filtered_df_literal beyond d t :
  is_literal t = true ->
  filtered_df beyond d t =
  match get_loc d "Gender" with
  | [] => inl (KeyError "Gender")
  | [jg] =>
      match default Object (dtypes d !! jg) with
      | Numeric => inl AttributeError
      | Object =>
          match get_loc d "Occupation" with
          | [] => inl (KeyError "Occupation")
          | [jo] =>
              match default Object (dtypes d !! jo) with
              | Numeric => inl AttributeError
              | Object =>
                  inr (mkDataFrame (columns d) (dtypes d)
                         (List.filter
                            (fun r : row =>
                               cell_matches (Re.Atoms (map Re.Lit (list_ascii_of_string t))) (cell_at jg r.2) ||
                               cell_matches (Re.Atoms (map Re.Lit (list_ascii_of_string t))) (cell_at jo r.2))
                            (rows d)))
              end
          | _ => inl AttributeError
          end
      end
  | _ => inl AttributeError
  end.
Proof.
  intros Hl. unfold filtered_df, PdStr.contains, getitem.
  rewrite (compile_literal beyond t Hl).
  destruct (get_loc d "Gender") as [|jg [|jg' jgs]]; [reflexivity| |reflexivity].
  cbn [column sdtype svalues].
  destruct (default Object (dtypes d !! jg)); [reflexivity|].
  destruct (get_loc d "Occupation") as [|jo [|jo' jos]]; [reflexivity| |reflexivity].
  cbn [column sdtype svalues].
  destruct (default Object (dtypes d !! jo)); [reflexivity|].
  unfold PdStr.getitem_mask. f_equal. f_equal.
  apply (select_rows_masks (cell_matches (Re.Atoms (map Re.Lit (list_ascii_of_string t))))
                           (cell_matches (Re.Atoms (map Re.Lit (list_ascii_of_string t))))).
Qed.

(** A search string that begins with a repetition sign does not compile. *)
Lemma compile_repetition beyond pat :
  starts_with_repetition pat = true -> Re.compile beyond pat = inl ReError.
Proof.
  destruct pat as [|c pat]; [discriminate|]. cbn [starts_with_repetition Re.compile].
  now intros ->.
Qed.

End SearchProperties.

(** ** The choices of the Predictions page (lines 102-103) *)

Module ChoiceFacts.
Import Py Pd.

Lemma cell_eqb_refl c : PdStr.cell_eqb c c = true.
Proof.
  destruct c as [x|s]; cbn [PdStr.cell_eqb]; [|apply String.eqb_refl].
  unfold is_nan. now destruct (x =? x)%float.
Qed.

Lemma dedup_fresh cs : forall seen c,
  In c (PdStr.dedup seen cs) -> existsb (PdStr.cell_eqb c) seen = false.
Proof.
  induction cs as [|c0 cs IH]; intros seen c; cbn [PdStr.dedup]; [intros []|].
  destruct (existsb (PdStr.cell_eqb c0) seen) eqn:E; [apply IH|].
  intros [<- | Hc]; [exact E|].
  apply IH in Hc. cbn [existsb] in Hc. now apply orb_false_iff in Hc.
Qed.

Lemma dedup_NoDup cs : forall seen, NoDup (PdStr.dedup seen cs).
Proof.
  induction cs as [|c0 cs IH]; intros seen; cbn [PdStr.dedup]; [constructor|].
  destruct (existsb (PdStr.cell_eqb c0) seen); [apply IH|].
  constructor; [|apply IH].
  rewrite list_elem_of_In. intros H. apply dedup_fresh in H.
  cbn [existsb] in H. now rewrite cell_eqb_refl in H.
Qed.

Lemma dedup_sublist cs : forall seen, sublist (PdStr.dedup seen cs) cs.
Proof.
  induction cs as [|c0 cs IH]; intros seen; cbn [PdStr.dedup]; [constructor|].
  destruct (existsb (PdStr.cell_eqb c0) seen); constructor; apply IH.
Qed.

Lemma dedup_complete cs : forall seen c,
  In c cs ->
  existsb (PdStr.cell_eqb c) seen = true \/
  exists v, In v (PdStr.dedup seen cs) /\ PdStr.cell_eqb c v = true.
Proof.
  induction cs as [|c0 cs IH]; intros seen c; cbn [PdStr.dedup]; [intros []|].
  intros Hc. destruct (existsb (PdStr.cell_eqb c0) seen) eqn:E.
  - destruct Hc as [<- | Hc]; [now left | now apply IH].
  - destruct Hc as [<- | Hc].
    + right. exists c0. split; [now left | apply cell_eqb_refl].
    + destruct (IH (c0 :: seen) c Hc) as [H | (v & Hv & Hcv)].
      * cbn [existsb] in H. apply orb_true_iff in H as [H | H]; [|now left].
        right. exists c0. split; [now left | exact H].
      * right. exists v. split; [now right | exact Hcv].
Qed.

Lemma cell_eqb_text s v : PdStr.cell_eqb (Str s) v = true -> v = Str s.
Proof.
  destruct v as [x|t]; cbn [PdStr.cell_eqb]; [discriminate|].
  intros H. apply String.eqb_eq in H. now subst.
Qed.

End ChoiceFacts.

(** ** Further properties of the script *)

Module Properties.
Import Py Pd St Layout Spec Facts LoaderFacts LoadFacts DatasetFacts MetricsFacts SearchFacts.
Import TrimFacts LoaderProperties PageFacts SearchProperties ChoiceFacts Claims Examples.

#[local] Set Default Proof Using "Type".

(** X1.  Line 24 cuts the white space around every column name and
    nothing else: each name of the table is its trimmed name between two
    runs of white space, the trimmed name neither begins nor ends with
    white space, dtypes and rows are untouched, and trimming a second time
    changes nothing. *)
Theorem X1_headers_are_trimmed (raw : DataFrame) :
  Forall2 trimmed_of (columns raw) (columns (strip_columns raw)) /\
  dtypes (strip_columns raw) = dtypes raw /\
  rows (strip_columns raw) = rows raw /\
  strip_columns (strip_columns raw) = strip_columns raw.
Proof.
  split; [|split; [reflexivity|split; [reflexivity|]]].
  - unfold strip_columns. cbn [columns].
    induction (columns raw) as [|h hs IH]; constructor; [apply strip_spec | exact IH].
  - unfold strip_columns. cbn [columns dtypes rows]. f_equal.
    rewrite map_map. apply map_ext. intros a. apply strip_idem.
Qed.

Section Loader.
Variable parse_number : string -> option float.
Variable corr : DataFrame -> exn + list (list float).
Variable format_number : float -> string.
Variable re_beyond : string -> exn + (string -> bool).

Local Abbreviation script := (script parse_number corr format_number re_beyond).
Local Abbreviation load := (load parse_number).

(** X2.  The Loader changes nothing in a validated Dataset: uploaded
    again as it is, it passes the check of the columns, the conversion
    leaves every cell and dtype, and no row is dropped. *)
Theorem X2_loader_is_idempotent (ds : DataFrame) :
  validated parse_number ds -> load ds = Done tt (mkSession (Some ds) []).
Proof.
  intros Hv. pose proof (validated_invariant parse_number ds Hv) as Hinv.
  apply validated_loaded in Hv as (raw & _ & _ & _ & ->).
  rewrite <- (loaded_loaded parse_number raw) at 2.
  assert (Hh : headers (loaded parse_number raw) = columns (loaded parse_number raw)).
  { unfold headers. cbn [loaded columns]. unfold headers. rewrite map_map.
    apply map_ext. intros a. apply strip_idem. }
  apply load_ok.
  - unfold has_required. rewrite Hh. exact (inv_required _ Hinv).
  - unfold distinct_headers. rewrite Hh. exact (inv_distinct _ Hinv).
Qed.

(** X3.  When the table has the required columns under distinct names,
    the Loader keeps the number and the order of the columns; each of the
    seven numeric-designated columns gets a numeric dtype whatever it
    was read as, and every other column, Gender and Occupation among
    them, keeps the dtype it was read with. *)
Theorem X3_loader_dtypes (raw : DataFrame) :
  has_required raw -> distinct_headers raw ->
  exists ds,
    load raw = Done tt (mkSession (Some ds) []) /\
    columns ds = headers raw /\
    length (dtypes ds) = length (dtypes raw) /\
    forall j h dt, headers raw !! j = Some h -> dtypes raw !! j = Some dt ->
      dtypes ds !! j = Some (if Py.contains numeric_columns h then Numeric else dt).
Proof.
  intros Hreq Hnd. exists (loaded parse_number raw).
  split; [now apply load_ok|]. split; [reflexivity|].
  cbn [loaded dtypes]. unfold coerce_dtypes_on. split; [apply length_imap|].
  intros j h dt Hh Hdt. now rewrite list_lookup_imap, Hdt, Hh.
Qed.

(** X4.  When the table has the required columns but one of the seven
    numeric-designated names is, once trimmed, the name of two columns,
    the run ends in the loop of lines 38-39 with TypeError: [df[col]] is
    a frame there, which [pd.to_numeric] refuses.  Nothing but the
    sidebar's two titles has been rendered, and no page is shown. *)
Theorem X4_repeated_numeric_header_raises (inp : Inputs) (raw : DataFrame) (c : string) :
  uploaded_file inp = Some raw ->
  has_required raw -> In c numeric_columns -> repeated_header raw c ->
  exists d, script inp = Raised TypeError (mkSession (Some d) sidebar).
Proof.
  intros Hup Hreq Hc Hrep.
  destruct (convert_until_repeated parse_number (skipn 2 required_columns)
              (strip_columns raw) sidebar) as (d & Hd).
  - intros c' Hc'. apply Hreq, numeric_required. exact Hc'.
  - exists c. split; [exact Hc | now apply repeated_header_get_loc].
  - exists d. unfold Layout.script, main. rewrite Hup. unfold load_data.
    cbv beta iota delta [bind render set_df the_df get_df ret df rendered].
    apply has_required_iff in Hreq. rewrite Hreq.
    cbn [app]. change [SidebarTitle "📌 Click Below"; SidebarTitle "📂 Upload Data"] with sidebar.
    now rewrite Hd.
Qed.

(** X5.  When the seven numeric-designated columns of the table were read
    as numbers already, the conversion of lines 38-39 changes no cell and
    no dtype: the Dataset is the table under its trimmed names, without
    the rows that miss a value in a required column, every kept row as it
    was uploaded. *)
Theorem X5_clean_upload_is_only_filtered (raw : DataFrame) :
  well_formed raw -> distinct_headers raw -> has_required raw ->
  (forall c, In c numeric_columns -> dtype_of (strip_columns raw) c = Some Numeric) ->
  load raw =
  Done tt (mkSession
             (Some (mkDataFrame (headers raw) (dtypes raw)
                      (List.filter (complete (headers raw)) (rows raw)))) []).
Proof.
  intros Hwf Hnd Hreq Hnum.
  rewrite <- (loaded_clean parse_number raw Hwf Hnd Hnum). now apply load_ok.
Qed.

(** X7.  Without an upload the Loader is skipped, [df] stays at "no
    dataset", and the chosen page shows its heading and its warning and
    nothing else, whatever the state of the widgets. *)
Theorem X7_no_upload_no_dataset (inp : Inputs) :
  uploaded_file inp = None ->
  script inp = Done tt (mkSession None (sidebar ++ no_dataset_view (page inp))).
Proof.
  intros Hup. unfold Layout.script, main. rewrite Hup.
  destruct (page inp); reflexivity.
Qed.

(** X8.  The Dataset a run ends with depends on the uploaded table alone:
    two runs on the same upload end with the same [df], whatever page is
    chosen, whatever is typed or selected, and whether or not the page
    raises. *)
Theorem X8_dataset_depends_on_upload_only (inp1 inp2 : Inputs) :
  uploaded_file inp1 = uploaded_file inp2 ->
  df (final (script inp1)) = df (final (script inp2)).
Proof.
  intros Hup. unfold Layout.script, main. rewrite Hup.
  cbv beta iota delta [bind render set_df df rendered].
  destruct (load_data parse_number (uploaded_file inp2) _) as [[] s|e s]; [|reflexivity].
  transitivity (df s); [|symmetry].
  - destruct (page inp1);
      [apply keeps_home | apply keeps_data_visualization
      | apply keeps_predictions | apply keeps_reports].
  - destruct (page inp2);
      [apply keeps_home | apply keeps_data_visualization
      | apply keeps_predictions | apply keeps_reports].
Qed.

(** X9.  Each of the four pages only reads the Dataset: started in any
    state, with or without a Dataset, and however it ends (finished or
    interrupted by an exception), it leaves [df] as it was and only adds
    to what was rendered before. *)
Theorem X9_pages_keep_the_dataset (inp : Inputs) :
  keeps_dataset home /\ keeps_dataset (data_visualization corr) /\
  keeps_dataset (predictions inp) /\ keeps_dataset (reports format_number re_beyond inp).
Proof.
  split; [apply keeps_home|]. split; [apply keeps_data_visualization|].
  split; [apply keeps_predictions | apply keeps_reports].
Qed.

(** X10.  Given a validated Dataset, the Chart View issues its plotting
    calls in the order of the script (the seaborn calls are recorded with
    their arguments, not evaluated): bar chart, scatter plot, the two
    histograms with their legend, each under its heading, then the heading
    of the heatmap and the one call of [corr].  When [corr] returns, its
    matrix is drawn as the fourth figure; when it raises, the run ends
    there with the first three figures shown. *)
Theorem X10_chart_view_order (ds : DataFrame) (out : list element) :
  validated parse_number ds ->
  exists jh jb,
    index_of (columns ds) "Heart Rate (bpm during attack)" = Some jh /\
    index_of (columns ds) "Breathing Rate (breaths/min)" = Some jb /\
    data_visualization corr (mkSession (Some ds) out) =
    match corr ds with
    | inr m =>
        Done tt (mkSession (Some ds)
                   (out ++ first_charts ds jh jb ++ [Pyplot [Heatmap m true "coolwarm" ".2f"]]))
    | inl e => Raised e (mkSession (Some ds) (out ++ first_charts ds jh jb))
    end.
Proof.
  intros Hv. pose proof (validated_invariant parse_number ds Hv) as Hinv.
  destruct (getitem_one ds Hinv "Heart Rate (bpm during attack)") as (jh & Hjh & Hgh);
    [apply (inv_required _ Hinv), contains_In; reflexivity|].
  destruct (getitem_one ds Hinv "Breathing Rate (breaths/min)") as (jb & Hjb & Hgb);
    [apply (inv_required _ Hinv), contains_In; reflexivity|].
  exists jh, jb. split; [exact Hjh|]. split; [exact Hjb|].
  unfold data_visualization.
  cbv beta iota delta [bind render get_df call ret raise df rendered].
  rewrite Hgh. cbv beta iota. rewrite Hgb. cbv beta iota.
  destruct (corr ds) as [e|m]; cbv beta iota; unfold first_charts;
    rewrite <- !app_assoc; reflexivity.
Qed.

(** X11.  Given a validated Dataset, the choices the Predictions page
    offers for Gender, and for Occupation, are the values of that column,
    each once, in the order of the rows they first appear in: no choice is
    offered twice, every value of the column is among them, and the first
    choice is the value of the first row. *)
Theorem X11_choices_are_the_distinct_values (ds : DataFrame) (c : string) :
  validated parse_number ds -> In c ["Gender"; "Occupation"] ->
  exists j options,
    getitem ds c = inr (OneColumn j (column ds j)) /\
    PdStr.unique (OneColumn j (column ds j)) = inr options /\
    NoDup options /\
    sublist options (column_values ds c) /\
    (forall v, In v (column_values ds c) ->
               exists v', In v' options /\ PdStr.cell_eqb v v' = true) /\
    (forall s, In (Str s) (column_values ds c) -> In (Str s) options) /\
    head options = head (column_values ds c).
Proof.
  intros Hv Hc. pose proof (validated_invariant parse_number ds Hv) as Hinv.
  assert (Hreq : In c required_columns).
  { destruct Hc as [<- | [<- | []]]; [apply gender_required | apply occupation_required]. }
  destruct (getitem_one ds Hinv c) as (j & Hj & Hg); [now apply (inv_required _ Hinv)|].
  exists j, (PdStr.dedup [] (column_values ds c)).
  split; [exact Hg|]. split; [cbn [PdStr.unique]; now rewrite (column_svalues ds c j Hj)|].
  split; [apply dedup_NoDup|]. split; [apply dedup_sublist|].
  assert (Hall : forall v, In v (column_values ds c) ->
                   exists v', In v' (PdStr.dedup [] (column_values ds c)) /\
                              PdStr.cell_eqb v v' = true).
  { intros v Hin. destruct (dedup_complete _ [] v Hin) as [H | H]; [discriminate | exact H]. }
  split; [exact Hall|]. split.
  - intros s Hs. destruct (Hall _ Hs) as (v' & Hv' & He).
    apply cell_eqb_text in He. now subst.
  - now destruct (column_values ds c).
Qed.

(** X12.  The search of line 123 needs text in both columns.  Given a
    validated Dataset whose Gender column is numeric, the Report View
    raises AttributeError for every search string; given one whose
    Occupation column is numeric, it does so for every search string that
    compiles.  The run ends after the page's heading: neither the table
    nor the download is shown. *)
Theorem X12_report_view_needs_text (ds : DataFrame) (inp : Inputs) (out : list element) :
  validated parse_number ds ->
  (dtype_of ds "Gender" = Some Numeric ->
   reports format_number re_beyond inp (mkSession (Some ds) out) =
   Raised AttributeError (mkSession (Some ds) (out ++ [Title "📄 Reports & Insights"]))) /\
  (dtype_of ds "Occupation" = Some Numeric ->
   forall re, Re.compile re_beyond (search_text inp) = inr re ->
   reports format_number re_beyond inp (mkSession (Some ds) out) =
   Raised AttributeError (mkSession (Some ds) (out ++ [Title "📄 Reports & Insights"]))).
Proof.
  intros Hv. pose proof (validated_invariant parse_number ds Hv) as Hinv.
  destruct (getitem_one ds Hinv "Gender") as (jg & Hjg & Hgg);
    [apply (inv_required _ Hinv), gender_required|].
  destruct (getitem_one ds Hinv "Occupation") as (jo & Hjo & Hgo);
    [apply (inv_required _ Hinv), occupation_required|].
  split.
  - intros Hg. apply reports_raises. unfold filtered_df, PdStr.contains. rewrite Hgg.
    now rewrite (column_sdtype ds "Gender" jg Numeric Hjg Hg).
  - intros Ho re Hre. apply reports_raises.
    unfold filtered_df, PdStr.contains. rewrite Hgg, Hgo.
    destruct (sdtype (column ds jg)); [reflexivity|].
    now rewrite Hre, (column_sdtype ds "Occupation" jo Numeric Hjo Ho).
Qed.

(** X13.  Given a validated Dataset with text in its Gender column, a
    search string that begins with one of the repetition signs [*], [+],
    [?] is refused as a regular expression: the Report View raises
    [re.error] after its heading and shows neither table nor download. *)
Theorem X13_repetition_sign_raises (ds : DataFrame) (inp : Inputs) (out : list element) :
  validated parse_number ds -> text_column ds "Gender" ->
  starts_with_repetition (search_text inp) = true ->
  reports format_number re_beyond inp (mkSession (Some ds) out) =
  Raised ReError (mkSession (Some ds) (out ++ [Title "📄 Reports & Insights"])).
Proof.
  intros Hv Hg Hrep. pose proof (validated_invariant parse_number ds Hv) as Hinv.
  destruct (getitem_one ds Hinv "Gender") as (jg & Hjg & Hgg);
    [apply (inv_required _ Hinv), gender_required|].
  apply reports_raises. unfold filtered_df, PdStr.contains. rewrite Hgg.
  now rewrite (column_sdtype ds "Gender" jg Object Hjg Hg), (compile_repetition re_beyond _ Hrep).
Qed.

End Loader.

(** X14.  The search ignores the case of the search string: two search
    strings without metacharacters that are equal in lower case give the
    same result on every frame, the same Filtered View or the same
    exception. *)
Theorem X14_search_ignores_case
  (beyond : string -> exn + (string -> bool)) (d : DataFrame) (t1 t2 : string) :
  is_literal t1 = true -> is_literal t2 = true -> lowercase t1 = lowercase t2 ->
  filtered_df beyond d t1 = filtered_df beyond d t2.
Proof.
  intros H1 H2 Hl. rewrite !filtered_df_literal by assumption.
  destruct (get_loc d "Gender") as [|jg [|jg' jgs]]; try reflexivity.
  destruct (default Object (dtypes d !! jg)); try reflexivity.
  destruct (get_loc d "Occupation") as [|jo [|jo' jos]]; try reflexivity.
  destruct (default Object (dtypes d !! jo)); try reflexivity.
  f_equal. f_equal. apply List.filter_ext. intros r.
  destruct (cell_at jg r.2), (cell_at jo r.2); cbn [cell_matches];
    rewrite ?(search_lowercase t1 t2) by assumption; reflexivity.
Qed.

(** X15.  A longer search shows fewer rows.  For search strings without
    metacharacters, when [t1] is contained in [t2] (case ignored: typing
    on from [t1] gives such a [t2]) and the search for [t2] yields a
    Filtered View, the search for [t1] yields one too, and the rows shown
    for [t2] are among the rows shown for [t1], in the same order. *)
Theorem X15_longer_search_shows_less
  (beyond : string -> exn + (string -> bool)) (d : DataFrame) (t1 t2 : string)
  (fv2 : DataFrame) :
  is_literal t1 = true -> is_literal t2 = true -> contains_ci t1 t2 ->
  filtered_df beyond d t2 = inr fv2 ->
  exists fv1, filtered_df beyond d t1 = inr fv1 /\ sublist (rows fv2) (rows fv1).
Proof.
  intros H1 H2 Hc. rewrite !filtered_df_literal by assumption.
  destruct (get_loc d "Gender") as [|jg [|jg' jgs]]; try discriminate.
  destruct (default Object (dtypes d !! jg)); try discriminate.
  destruct (get_loc d "Occupation") as [|jo [|jo' jos]]; try discriminate.
  destruct (default Object (dtypes d !! jo)); try discriminate.
  intros [= <-]. eexists. split; [reflexivity|]. cbn [rows].
  apply filter_sublist_mono. intros r Hr.
  apply orb_true_iff in Hr. apply orb_true_iff.
  destruct Hr as [Hr | Hr]; [left | right];
    (destruct (cell_at _ r.2); [discriminate|]; cbn [cell_matches] in *;
     now apply (search_narrows t1 t2)).
Qed.

(** *** The properties at concrete tables *)

Lemma twice_sleep_repeated : repeated_header twice_sleep "Sleep Hours".
Proof. exists 8%nat, 9%nat. split; [discriminate|]. split; reflexivity. Qed.

(** The one-row Dataset, uploaded again. *)
Lemma X2_one_row_again :
  validated parse_digits (loaded parse_digits one_row) /\
  load parse_digits (loaded parse_digits one_row) =
  Done tt (mkSession (Some (loaded parse_digits one_row)) []).
Proof.
  split; [exact one_row_validated|].
  exact (X2_loader_is_idempotent parse_digits _ one_row_validated).
Defined.

(** The upload [survey]: its stress column, read as text, is numeric in
    the Dataset; Gender and the notes stay columns of objects. *)
Lemma X3_survey_dtypes :
  has_required survey /\ distinct_headers survey /\
  exists ds, load parse_digits survey = Done tt (mkSession (Some ds) []) /\
             dtypes ds !! 2%nat = Some Numeric /\
             dtypes ds !! 0%nat = Some Object /\
             dtypes ds !! 9%nat = Some Object.
Proof.
  assert (H1 : has_required survey) by (apply has_required_iff; reflexivity).
  assert (H2 : distinct_headers survey) by (apply distinctb_NoDup; reflexivity).
  split; [exact H1|]. split; [exact H2|].
  destruct (X3_loader_dtypes parse_digits survey H1 H2) as (ds & Hl & _ & _ & Hd).
  exists ds. split; [exact Hl|].
  split; [|split].
  - exact (Hd 2%nat _ _ eq_refl eq_refl).
  - exact (Hd 0%nat _ _ eq_refl eq_refl).
  - exact (Hd 9%nat _ _ eq_refl eq_refl).
Defined.

(** The upload [twice_sleep], whose last two columns are both named Sleep
    Hours once trimmed. *)
Lemma X4_two_columns_of_sleep_hours :
  has_required twice_sleep /\ repeated_header twice_sleep "Sleep Hours" /\
  exists d, Layout.script parse_digits no_corr format_digits no_beyond (defaults Home (Some twice_sleep)) =
            Raised TypeError (mkSession (Some d) sidebar).
Proof.
  assert (H1 : has_required twice_sleep) by (apply has_required_iff; reflexivity).
  split; [exact H1|]. split; [exact twice_sleep_repeated|].
  apply (X4_repeated_numeric_header_raises parse_digits no_corr format_digits no_beyond
           (defaults Home (Some twice_sleep)) twice_sleep "Sleep Hours" eq_refl H1).
  - apply contains_In. reflexivity.
  - exact twice_sleep_repeated.
Defined.

Lemma numeric_columns_dtypes (raw : DataFrame) :
  forallb (fun c => match dtype_of (strip_columns raw) c with
                    | Some Numeric => true
                    | _ => false
                    end) numeric_columns = true ->
  forall c, In c numeric_columns -> dtype_of (strip_columns raw) c = Some Numeric.
Proof.
  intros H c Hc. rewrite forallb_forall in H. specialize (H c Hc).
  now destruct (dtype_of (strip_columns raw) c) as [[|]|].
Qed.

(** The upload [leading_zero]: its first row misses its gender and is
    dropped, its second row is kept as it is. *)
Lemma X5_leading_zero_second_row :
  well_formed leading_zero /\ distinct_headers leading_zero /\ has_required leading_zero /\
  load parse_digits leading_zero =
  Done tt (mkSession
             (Some (mkDataFrame (columns leading_zero) (dtypes leading_zero)
                      (skipn 1 (rows leading_zero)))) []).
Proof.
  assert (H1 : has_required leading_zero) by (apply has_required_iff; reflexivity).
  assert (H2 : distinct_headers leading_zero) by (apply distinctb_NoDup; reflexivity).
  split; [exact leading_zero_well_formed|]. split; [exact H2|]. split; [exact H1|].
  rewrite (X5_clean_upload_is_only_filtered parse_digits leading_zero
             leading_zero_well_formed H2 H1 (numeric_columns_dtypes leading_zero eq_refl)).
  reflexivity.
Defined.

(** The Reports page before anything is uploaded. *)
Lemma X7_reports_without_upload :
  Layout.script parse_digits no_corr format_digits no_beyond (defaults Reports None) =
  Done tt (mkSession None
             [SidebarTitle "📌 Click Below"; SidebarTitle "📂 Upload Data";
              Title "📄 Reports & Insights";
              Warning "⚠ Please upload a dataset to generate reports."]).
Proof.
  exact (X7_no_upload_no_dataset parse_digits no_corr format_digits no_beyond (defaults Reports None) eq_refl).
Defined.

(** The upload [survey] on the Home page and searched for "*" on the
    Reports page, where the run is interrupted: the same Dataset. *)
Lemma X8_home_and_interrupted_search :
  df (final (Layout.script parse_digits no_corr format_digits no_beyond (defaults Home (Some survey)))) =
  df (final (Layout.script parse_digits no_corr format_digits no_beyond (searching "*" survey))).
Proof.
  exact (X8_dataset_depends_on_upload_only parse_digits no_corr format_digits no_beyond
           (defaults Home (Some survey)) (searching "*" survey) eq_refl).
Defined.

(** The Chart View of the one-row Dataset when [corr] returns no matrix
    entry: four figures. *)
Lemma X10_one_row_charts :
  validated parse_digits (loaded parse_digits one_row) /\
  data_visualization no_corr (mkSession (Some (loaded parse_digits one_row)) []) =
  Done tt (mkSession (Some (loaded parse_digits one_row))
             (first_charts (loaded parse_digits one_row) 3 4 ++
              [Pyplot [Heatmap [] true "coolwarm" ".2f"]])).
Proof.
  split; [exact one_row_validated|].
  destruct (X10_chart_view_order parse_digits no_corr (loaded parse_digits one_row) []
              one_row_validated) as (jh & jb & Hjh & Hjb & Hrun).
  vm_compute in Hjh, Hjb. injection Hjh as <-. injection Hjb as <-. exact Hrun.
Defined.

(** The genders offered for [male_female]: Male, then Female. *)
Lemma X11_two_genders :
  validated parse_digits (loaded parse_digits male_female) /\
  exists j options,
    getitem (loaded parse_digits male_female) "Gender" =
      inr (OneColumn j (column (loaded parse_digits male_female) j)) /\
    PdStr.unique (OneColumn j (column (loaded parse_digits male_female) j)) = inr options /\
    options = [Str "Male"; Str "Female"].
Proof.
  split; [exact male_female_validated|].
  destruct (X11_choices_are_the_distinct_values parse_digits (loaded parse_digits male_female)
              "Gender" male_female_validated (or_introl eq_refl))
    as (j & options & Hg & Hu & _).
  exists j, options. split; [exact Hg|]. split; [exact Hu|].
  vm_compute in Hg. injection Hg as <-.
  vm_compute in Hu. now injection Hu as <-.
Defined.

Lemma coded_occupation_well_formed : well_formed coded_occupation.
Proof. well_formed_table. Qed.

Lemma coded_occupation_validated :
  validated parse_digits (loaded parse_digits coded_occupation).
Proof.
  apply example_validated; [apply coded_occupation_well_formed | reflexivity | reflexivity].
Qed.

(** The Dataset of [coded_gender], whatever is searched, and the Dataset
    of [coded_occupation], searched for "Male", which compiles. *)
Lemma X12_coded_gender_report :
  validated parse_digits (loaded parse_digits coded_gender) /\
  dtype_of (loaded parse_digits coded_gender) "Gender" = Some Numeric /\
  reports format_digits no_beyond (searching "Male" coded_gender)
    (mkSession (Some (loaded parse_digits coded_gender)) []) =
  Raised AttributeError (mkSession (Some (loaded parse_digits coded_gender))
                           [Title "📄 Reports & Insights"]) /\
  validated parse_digits (loaded parse_digits coded_occupation) /\
  dtype_of (loaded parse_digits coded_occupation) "Occupation" = Some Numeric /\
  reports format_digits no_beyond (searching "Male" coded_occupation)
    (mkSession (Some (loaded parse_digits coded_occupation)) []) =
  Raised AttributeError (mkSession (Some (loaded parse_digits coded_occupation))
                           [Title "📄 Reports & Insights"]).
Proof.
  split; [exact coded_gender_validated|]. split; [reflexivity|]. split.
  - exact (proj1 (X12_report_view_needs_text parse_digits format_digits no_beyond
                    (loaded parse_digits coded_gender) (searching "Male" coded_gender) []
                    coded_gender_validated) eq_refl).
  - split; [exact coded_occupation_validated|]. split; [reflexivity|].
    exact (proj2 (X12_report_view_needs_text parse_digits format_digits no_beyond
                    (loaded parse_digits coded_occupation) (searching "Male" coded_occupation) []
                    coded_occupation_validated) eq_refl _ eq_refl).
Defined.

(** Searching "+1" in [male_female]. *)
Lemma X13_plus_sign :
  validated parse_digits (loaded parse_digits male_female) /\
  text_column (loaded parse_digits male_female) "Gender" /\
  reports format_digits no_beyond (searching "+1" male_female)
    (mkSession (Some (loaded parse_digits male_female)) []) =
  Raised ReError (mkSession (Some (loaded parse_digits male_female))
                    [Title "📄 Reports & Insights"]).
Proof.
  split; [exact male_female_validated|]. split; [reflexivity|].
  exact (X13_repetition_sign_raises parse_digits format_digits no_beyond
           (loaded parse_digits male_female) (searching "+1" male_female) []
           male_female_validated eq_refl eq_refl).
Defined.

(** "Male" and "mALE" on [male_female]. *)
Lemma X14_male_in_two_cases :
  filtered_df no_beyond (loaded parse_digits male_female) "Male" =
  filtered_df no_beyond (loaded parse_digits male_female) "mALE".
Proof.
  exact (X14_search_ignores_case no_beyond (loaded parse_digits male_female) "Male" "mALE"
           eq_refl eq_refl eq_refl).
Defined.

(** Typing on from "ma" to "male" on [male_female]. *)
Lemma X15_from_ma_to_male :
  contains_ci "ma" "male" /\
  exists fv2 fv1,
    filtered_df no_beyond (loaded parse_digits male_female) "male" = inr fv2 /\
    filtered_df no_beyond (loaded parse_digits male_female) "ma" = inr fv1 /\
    sublist (rows fv2) (rows fv1).
Proof.
  assert (Hc : contains_ci "ma" "male") by (exists "", "le"; reflexivity).
  split; [exact Hc|].
  assert (H2 : exists fv2, filtered_df no_beyond (loaded parse_digits male_female) "male" = inr fv2)
    by (eexists; vm_compute; reflexivity).
  destruct H2 as (fv2 & H2).
  destruct (X15_longer_search_shows_less no_beyond (loaded parse_digits male_female) "ma" "male" fv2
              eq_refl eq_refl Hc H2) as (fv1 & H1 & Hs).
  now exists fv2, fv1.
Defined.

End Properties.
